(** * Adaptive retrieval pipeline of the MATLAB troubleshooter

    A shallow embedding of the decision and orchestration code of the
    repository: [agents/models.py], [agents/retrieval_agent.py],
    [agents/evaluation_agent.py], [agents/web_search_agent.py],
    [agents/generation_agent.py], [agents/orchestrator.py],
    [Scripts/combined_rag_final.py] and [generate_response] of [main.py].

    Conventions of the embedding.
    - A Python [str] is a [string]; its characters are read as the code points
      0..255, on which [strip] and [lower] below agree with CPython.
    - A relevance score is a finite Python float.  The code only compares
      scores (with each other and with the thresholds) and comparisons of
      finite floats are exact, so a score is embedded as the rational it
      denotes ([Q]); not-a-number is outside the data model (scores lie in
      the unit interval).
    - A [Dict[str, Any]] of document metadata is a [gmap string string].
    - What [json.loads] returns is a [Json.t]: any JSON value, of whatever
      shape, a JSON number being a Python [int] or [float].
    - Every call to an external service (language model chains, the FAISS
      index, the DuckDuckGo tool, the image model) is recorded in a trace and
      answered by a [World], which may see the whole trace so far and may
      raise. *)

From stdpp Require Import base option list gmap strings.
From Stdlib Require Import Ascii String ZArith QArith Lia Lqa Bool Sorted Permutation.
From Stdlib Require Import PrimFloat.

Local Open Scope string_scope.
Local Open Scope list_scope.

(** ** Python built-ins used by the code *)

Module Py.

(** [str.isspace] on one character. *)
Definition isspace (c : ascii) : bool :=
  let n := nat_of_ascii c in
  ((9 <=? n) && (n <=? 13) || (28 <=? n) && (n <=? 32) || (n =? 133) || (n =? 160))%nat.

Fixpoint lstrip (s : string) : string :=
  match s with
  | EmptyString => EmptyString
  | String c t => if isspace c then lstrip t else s
  end.

Fixpoint rstrip (s : string) : string :=
  match s with
  | EmptyString => EmptyString
  | String c t =>
      match rstrip t with
      | EmptyString => if isspace c then EmptyString else String c EmptyString
      | t' => String c t'
      end
  end.

(** [s.strip()] *)
Definition strip (s : string) : string := rstrip (lstrip s).

Definition lower_char (c : ascii) : ascii :=
  let n := nat_of_ascii c in
  if ((65 <=? n) && (n <=? 90) || (192 <=? n) && (n <=? 222) && negb (n =? 215))%nat
  then ascii_of_nat (n + 32) else c.

(** [s.lower()] *)
Fixpoint lower (s : string) : string :=
  match s with
  | EmptyString => EmptyString
  | String c t => String (lower_char c) (lower t)
  end.

(** [s[:n]] for [n >= 0] *)
Definition slice_to (n : nat) (s : string) : string := String.substring 0 n s.

(** [s[:n]] for any [int]: a negative bound counts from the end of the
    string, and stops at its start. *)
Definition slice_to_int (n : Z) (s : string) : string :=
  if (0 <=? n)%Z then slice_to (Z.to_nat n) s
  else slice_to (String.length s - Z.to_nat (- n)) s.

(** [s.split('\n')]: never empty, the last piece is what follows the last
    newline. *)
Fixpoint split_lines (s : string) : list string :=
  match s with
  | EmptyString => [EmptyString]
  | String c t =>
      if Ascii.eqb c "010"%char then EmptyString :: split_lines t
      else match split_lines t with
           | h :: r => String c h :: r
           | [] => [String c EmptyString]
           end
  end.

(** [sep.join(parts)] *)
Definition join (sep : string) (parts : list string) : string :=
  String.concat sep parts.

(** Truth value of a [str]: non-empty. *)
Definition truthy (s : string) : bool :=
  match s with EmptyString => false | _ => true end.

(** [max(iterable)] of CPython: the first item is the running maximum and a
    later item replaces it only when it compares strictly greater. *)
Fixpoint max_from {A} (gt : A -> A -> bool) (cur : A) (l : list A) : A :=
  match l with
  | [] => cur
  | x :: t => if gt x cur then max_from gt x t else max_from gt cur t
  end.

(** [None] stands for the [ValueError] raised on an empty iterable. *)
Definition max_by {A} (gt : A -> A -> bool) (l : list A) : option A :=
  match l with
  | [] => None
  | x :: t => Some (max_from gt x t)
  end.

(** [x > y] and [x < y] on floats. *)
Definition Qgtb (x y : Q) : bool := negb (Qle_bool x y).

Definition Qltb (x y : Q) : bool := negb (Qle_bool y x).

(** [sorted(l, key=key, reverse=True)] for a float key.  The built-in sort
    is stable, also with [reverse=True]; its result is therefore the one
    computed by this stable insertion sort. *)
Fixpoint insert_desc {A} (key : A -> Q) (x : A) (l : list A) : list A :=
  match l with
  | [] => [x]
  | y :: t => if Qgtb (key y) (key x) then y :: insert_desc key x t else x :: y :: t
  end.

Fixpoint sorted_desc {A} (key : A -> Q) (l : list A) : list A :=
  match l with
  | [] => []
  | x :: t => insert_desc key x (sorted_desc key t)
  end.

(** [zip(xs, ys)] *)
Fixpoint zip {A B} (xs : list A) (ys : list B) : list (A * B) :=
  match xs, ys with
  | x :: xs', y :: ys' => (x, y) :: zip xs' ys'
  | _, _ => []
  end.

(** [x in names] for strings. *)
Definition str_in (x : string) (names : list string) : bool :=
  existsb (String.eqb x) names.

(** The one-character string of a line feed. *)
Definition nl : string := String "010" EmptyString.

(** [d.get(key, default)] *)
Definition dict_get (d : gmap string string) (key dflt : string) : string :=
  default dflt (d !! key).

End Py.

(** ** [agents/models.py] *)

Module Document.
Record t := mk { content : string; metadata : gmap string string }.

(** [preview(self, max_length)]; [max_length] is an [int]. *)
Definition preview_n (self : t) (max_length : Z) : string :=
  if (max_length <? Z.of_nat (String.length (content self)))%Z
  then Py.slice_to_int max_length (content self) +:+ "..."
  else content self.

(** [preview(self, max_length=200)] *)
Definition preview (self : t) : string := preview_n self 200.
End Document.

Module RelevanceScore.
Record t := mk { score : Q; is_relevant : bool }.
End RelevanceScore.

Module ReferenceLink.
Record t := mk { title : string; url : string }.
End ReferenceLink.

Module RelevantDocument.
Record t := mk { content_preview : string; score : Q; url : string }.
End RelevantDocument.

Module QueryResult.
Record t := mk {
  final_response : string;
  reference_links : list ReferenceLink.t;
  relevant_docs : list RelevantDocument.t
}.
End QueryResult.

Module WebSearchResult.
Record t := mk { knowledge : string; sources : list ReferenceLink.t }.
End WebSearchResult.

(** ** Exceptions, service calls and the monad of the pipeline *)

(** The exceptions the modelled code can meet.  All of them are subclasses of
    Python's [Exception]. *)
Inductive Exception :=
| ServiceCallFailed (msg : string)
| TypeError
| AttributeError
| ValueError
| ValidationError.

Inductive Result (A : Type) :=
| Ok (a : A)
| Raise (e : Exception).
Arguments Ok {A} a.
Arguments Raise {A} e.

(** Sequencing of steps that make no service call: the first exception ends
    the computation. *)
Definition and_then {A B} (r : Result A) (k : A -> Result B) : Result B :=
  match r with
  | Ok a => k a
  | Raise e => Raise e
  end.

Notation "'let?' x ':=' r 'in' k" := (and_then r (fun x => k))
  (at level 10, x name, r at level 100, k at level 200).

(** [for x in xs: acc = body(acc, x)] without service calls. *)
Fixpoint fold_result {A S} (xs : list A) (body : S -> A -> Result S) (acc : S)
  : Result S :=
  match xs with
  | [] => Ok acc
  | x :: rest => let? acc' := body acc x in fold_result rest body acc'
  end.

(** ** Values returned by [json.loads] *)

Module Json.

(** An object holds the items of the [dict] in insertion order; its keys are
    distinct. *)
#[local] Unset Elimination Schemes.
Inductive t :=
| Null
| Boolean (b : bool)
| Int (n : Z)
| Float (x : float)
| Str (s : string)
| Array (items : list t)
| Object (fields : list (string * t)).
#[local] Set Elimination Schemes.

(** Truth value, as [if v:] reads it. *)
Definition truthy (v : t) : bool :=
  match v with
  | Null => false
  | Boolean b => b
  | Int n => negb (n =? 0)%Z
  | Float x => negb (PrimFloat.eqb x 0%float)
  | Str s => Py.truthy s
  | Array items => match items with [] => false | _ => true end
  | Object fields => match fields with [] => false | _ => true end
  end.

(** [for x in v]: a list gives its items, a [dict] its keys, a [str] its
    characters; the other values are not iterable ([TypeError]). *)
Definition iter (v : t) : Result (list t) :=
  match v with
  | Array items => Ok items
  | Object fields => Ok (List.map (fun field : string * t => Str (fst field)) fields)
  | Str s => Ok (List.map (fun c => Str (String c EmptyString)) (list_ascii_of_string s))
  | _ => Raise TypeError
  end.

Fixpoint lookup (key : string) (fields : list (string * t)) : option t :=
  match fields with
  | [] => None
  | (k, v) :: rest => if String.eqb k key then Some v else lookup key rest
  end.

(** [v.get(key, dflt)]: only a [dict] has the method ([AttributeError]). *)
Definition get (v : t) (key : string) (dflt : t) : Result t :=
  match v with
  | Object fields => Ok (default dflt (lookup key fields))
  | _ => Raise AttributeError
  end.

End Json.

(** Prior turns of the conversation: [(role, content)] in chronological
    order. *)
Definition History := list (string * string).

(** One request to an external collaborator. *)
Inductive Call :=
| ImageModel (query : string) (image_bytes : list Byte.byte)
| RetrievalChain (query : string)
| SimilaritySearch (query : string) (k : nat)
| RelevanceChain (query context : string)
| NumericalRelevanceChain (query document : string)
| SupportChain (response context : string)
| UtilityChain (query response : string)
| QueryRewriteChain (query : string)
| SearchTool (query : string)
| KnowledgeRefinementChain (document : string)
| GenerationChain (query context : string) (history : option History).

Definition Trace := list Call.

(** The collaborators.  Each answer may depend on everything that was asked
    before and may be an exception.  [json_loads], [format_2f] (the format
    specification [.2f]) and [py_str] ([str] of a parsed value that is not
    itself a string) are library functions and do not see the trace.
    [json_loads] answers [None] when the text is not JSON
    ([json.JSONDecodeError]) and otherwise the parsed value. *)
Record World := {
  image_model : Trace -> string -> list Byte.byte -> Result string;
  retrieval_chain : Trace -> string -> Result string;
  similarity_search : Trace -> string -> nat -> Result (list (string * gmap string string));
  relevance_chain : Trace -> string -> string -> Result string;
  numerical_relevance_chain : Trace -> string -> string -> Result Q;
  support_chain : Trace -> string -> string -> Result string;
  utility_chain : Trace -> string -> string -> Result Z;
  query_rewrite_chain : Trace -> string -> Result string;
  search_tool : Trace -> string -> Result string;
  knowledge_refinement_chain : Trace -> string -> Result string;
  generation_chain : Trace -> string -> string -> option History -> Result string;
  json_loads : string -> option Json.t;
  format_2f : Q -> string;
  py_str : Json.t -> string
}.

(** [f"{v}"] for a parsed value. *)
Definition format_value (w : World) (v : Json.t) : string :=
  match v with
  | Json.Str s => s
  | _ => py_str w v
  end.

(** A computation reads and extends the trace and returns or raises. *)
Definition M (A : Type) : Type := Trace -> Result A * Trace.

Definition ret {A} (a : A) : M A := fun tr => (Ok a, tr).

Definition raise {A} (e : Exception) : M A := fun tr => (Raise e, tr).

(** A step that makes no service call. *)
Definition lift {A} (r : Result A) : M A := fun tr => (r, tr).

Definition bind {A B} (c : M A) (k : A -> M B) : M B :=
  fun tr =>
    match c tr with
    | (Ok a, tr') => k a tr'
    | (Raise e, tr') => (Raise e, tr')
    end.

Notation "'let*' x ':=' c 'in' k" := (bind c (fun x => k))
  (at level 10, x name, c at level 100, k at level 200).

(** A service call: the request is logged whether or not the answer is an
    exception. *)
Definition invoke {A} (c : Call) (answer : Trace -> Result A) : M A :=
  fun tr => (answer tr, tr ++ [c]).

(** [try: c except Exception: handler] *)
Definition try_except {A} (c : M A) (handler : Exception -> M A) : M A :=
  fun tr =>
    match c tr with
    | (Ok a, tr') => (Ok a, tr')
    | (Raise e, tr') => handler e tr'
    end.

(** [for x in xs: acc = body(acc, x)] *)
Fixpoint for_each {A S} (xs : list A) (body : S -> A -> M S) (acc : S) : M S :=
  match xs with
  | [] => ret acc
  | x :: rest => let* acc' := body acc x in for_each rest body acc'
  end.

(** ** [agents/retrieval_agent.py] *)

Module RetrievalAgent.

Definition top_k : nat := 3.

Definition should_retrieve (w : World) (query : string) : M bool :=
  let* response := invoke (RetrievalChain query) (fun tr => retrieval_chain w tr query) in
  let retrieval_decision := Py.lower (Py.strip response) in
  ret (String.eqb retrieval_decision "yes").

Definition retrieve_documents (w : World) (query : string) : M (list Document.t) :=
  let* raw_docs := invoke (SimilaritySearch query top_k)
                          (fun tr => similarity_search w tr query top_k) in
  ret (List.map (fun doc => Document.mk (fst doc) (snd doc)) raw_docs).

Definition run (w : World) (query : string) : M (bool * list Document.t) :=
  let* should_retrieve := should_retrieve w query in
  if negb should_retrieve then ret (false, [])
  else let* documents := retrieve_documents w query in ret (true, documents).

End RetrievalAgent.

(** ** [agents/evaluation_agent.py] *)

Module EvaluationAgent.

Record t := mk { lower_threshold : Q; upper_threshold : Q }.

(** The body of the loop of [evaluate_relevance]: both judgments of one
    document, the binary one first. *)
Definition evaluate_document (w : World) (query : string) (doc : Document.t)
  : M RelevanceScore.t :=
  let* response := invoke (RelevanceChain query (Document.content doc))
                     (fun tr => relevance_chain w tr query (Document.content doc)) in
  let binary_relevance := Py.lower (Py.strip response) in
  let is_relevant := String.eqb binary_relevance "relevant" in
  let* numerical_score := invoke (NumericalRelevanceChain query (Document.content doc))
                     (fun tr => numerical_relevance_chain w tr query (Document.content doc)) in
  ret (RelevanceScore.mk numerical_score is_relevant).

Definition evaluate_relevance (w : World) (query : string) (documents : list Document.t)
  : M (list RelevanceScore.t) :=
  for_each documents
    (fun results doc =>
       let* r := evaluate_document w query doc in ret (results ++ [r]))
    [].

Definition evaluate_support (w : World) (response context : string) : M string :=
  let* r := invoke (SupportChain response context)
              (fun tr => support_chain w tr response context) in
  ret (Py.lower (Py.strip r)).

Definition evaluate_utility (w : World) (query response : string) : M Z :=
  invoke (UtilityChain query response) (fun tr => utility_chain w tr query response).

Definition determine_retrieval_strategy (self : t) (scores : list RelevanceScore.t)
  : string :=
  match List.map RelevanceScore.score scores with
  | [] => "web_only"
  | first :: rest =>
      let max_score := Py.max_from Py.Qgtb first rest in
      if Py.Qltb max_score (lower_threshold self) then "web_only"
      else if Qle_bool (upper_threshold self) max_score then "kb_only"
      else "hybrid"
  end.

(** The returned dictionary, as the pair (relevance_scores,
    retrieval_strategy). *)
Definition run (self : t) (w : World) (query : string) (documents : list Document.t)
  : M (list RelevanceScore.t * string) :=
  let* relevance_scores := evaluate_relevance w query documents in
  let retrieval_strategy := determine_retrieval_strategy self relevance_scores in
  ret (relevance_scores, retrieval_strategy).

End EvaluationAgent.

(** ** [agents/web_search_agent.py] *)

Module WebSearchAgent.

Definition rewrite_query (w : World) (query : string) : M string :=
  let* r := invoke (QueryRewriteChain query) (fun tr => query_rewrite_chain w tr query) in
  ret (Py.strip r).

(** [[point.strip() for point in result.split('\n') if point.strip()]] *)
Definition key_points_of (result : string) : list string :=
  List.map Py.strip
    (List.filter (fun point => Py.truthy (Py.strip point)) (Py.split_lines result)).

Definition extract_knowledge (w : World) (document : string) : M (list string) :=
  let* result := invoke (KnowledgeRefinementChain document)
                   (fun tr => knowledge_refinement_chain w tr document) in
  ret (key_points_of result).

(** [ReferenceLink(title=title, url=url)] on parsed values: pydantic (version
    2, the code calls [model_dump]) accepts a [str] for a [str] field and
    nothing else that [json.loads] can return. *)
Definition reference_link (title url : Json.t) : Result ReferenceLink.t :=
  match title, url with
  | Json.Str title, Json.Str url => Ok (ReferenceLink.mk title url)
  | _, _ => Raise ValidationError
  end.

(** The body of the loop of [extract_sources]. *)
Definition add_source (sources : list ReferenceLink.t) (result : Json.t)
  : Result (list ReferenceLink.t) :=
  let? title := Json.get result "title" (Json.Str "Untitled") in
  let? link := Json.get result "link" (Json.Str "") in
  if Json.truthy link
  then let? source := reference_link title link in Ok (sources ++ [source])
  else Ok sources.

(** Only [json.JSONDecodeError] is caught. *)
Definition extract_sources (w : World) (web_results : string)
  : Result (list ReferenceLink.t) :=
  match json_loads w web_results with
  | Some results =>
      let? items := Json.iter results in
      fold_result items add_source []
  | None => Ok []
  end.

Definition run (w : World) (query : string) : M WebSearchResult.t :=
  let* rewritten_query := rewrite_query w query in
  let* web_results := invoke (SearchTool rewritten_query)
                        (fun tr => search_tool w tr rewritten_query) in
  let* key_points := extract_knowledge w web_results in
  let web_knowledge := Py.join Py.nl key_points in
  let* sources := lift (extract_sources w web_results) in
  ret (WebSearchResult.mk web_knowledge sources).

End WebSearchAgent.

(** ** [agents/generation_agent.py] *)

Module GenerationAgent.

(** What a caller may put in the [strategy] position of [run]: a strategy
    name, or (as the no-retrieval call of the orchestrator does) the
    conversation history. *)
Inductive StrategyArg :=
| StrategyName (name : string)
| StrategyHistory (conversation_history : option History).

(** [strategy == name] *)
Definition strategy_is (strategy : StrategyArg) (name : string) : bool :=
  match strategy with
  | StrategyName s => String.eqb s name
  | StrategyHistory _ => false
  end.

(** The ["history"] entry of [input_data]: present only for a non-empty
    history. *)
Definition history_input (conversation_history : option History) : option History :=
  match conversation_history with
  | Some (_ :: _) => conversation_history
  | _ => None
  end.

Definition generate (w : World) (query context : string)
  (conversation_history : option History) : M string :=
  invoke (GenerationChain query context (history_input conversation_history))
    (fun tr => generation_chain w tr query context (history_input conversation_history)).

(** Returns the pair (context, sources). *)
Definition _prepare_kb_context (w : World) (documents : list Document.t)
  (scores : list Q) : string * list ReferenceLink.t :=
  let doc_score_pairs := Py.zip documents scores in
  let sorted_pairs := Py.sorted_desc snd doc_score_pairs in
  let content_parts :=
    List.map (fun pair : Document.t * Q =>
                "Document (relevance: " +:+ format_2f w (snd pair) +:+ "):" +:+ Py.nl
                +:+ Document.content (fst pair))
             sorted_pairs in
  let sources :=
    List.flat_map
      (fun pair : Document.t * Q =>
         let url := Py.dict_get (Document.metadata (fst pair)) "source_url" "" in
         if Py.truthy url
         then [ReferenceLink.mk ("Document (score: " +:+ format_2f w (snd pair) +:+ ")") url]
         else [])
      sorted_pairs in
  (Py.join (Py.nl +:+ Py.nl) content_parts, sources).

(** Each generator returns the pair (response, sources).  [None] for
    [documents], [scores] or [web_result] is Python's [None]. *)
Definition generate_from_kb (w : World) (query : string)
  (documents : option (list Document.t)) (scores : option (list Q))
  (conversation_history : option History) : M (string * list ReferenceLink.t) :=
  match documents, scores with
  | Some documents, Some scores =>
      let context_data := _prepare_kb_context w documents scores in
      let* response := generate w query (fst context_data) conversation_history in
      ret (response, snd context_data)
  | _, _ => raise TypeError
  end.

Definition generate_from_web (w : World) (query : string)
  (web_result : option WebSearchResult.t)
  (conversation_history : option History) : M (string * list ReferenceLink.t) :=
  match web_result with
  | Some web_result =>
      let sources_text :=
        Py.join Py.nl
          (List.map (fun source => ReferenceLink.title source +:+ ": " +:+ ReferenceLink.url source)
                    (WebSearchResult.sources web_result)) in
      let context :=
        "Web search results:" +:+ Py.nl +:+ WebSearchResult.knowledge web_result
        +:+ Py.nl +:+ Py.nl +:+ "Sources:" +:+ Py.nl +:+ sources_text in
      let* response := generate w query context conversation_history in
      ret (response, WebSearchResult.sources web_result)
  | None => raise AttributeError
  end.

Definition generate_hybrid (w : World) (query : string)
  (documents : option (list Document.t)) (scores : option (list Q))
  (web_result : option WebSearchResult.t)
  (conversation_history : option History) : M (string * list ReferenceLink.t) :=
  match documents, scores with
  | Some documents, Some scores =>
      let kb_context := _prepare_kb_context w documents scores in
      match web_result with
      | Some web_result =>
          let combined_context :=
            "Knowledge Base Information:" +:+ Py.nl +:+ fst kb_context +:+ Py.nl +:+ Py.nl
            +:+ "Web Search Information:" +:+ Py.nl +:+ WebSearchResult.knowledge web_result in
          let* response := generate w query combined_context conversation_history in
          ret (response, snd kb_context ++ WebSearchResult.sources web_result)
      | None => raise AttributeError
      end
  | _, _ => raise TypeError
  end.

Definition generate_without_context (w : World) (query : string)
  (conversation_history : option History) : M (string * list ReferenceLink.t) :=
  let* response := generate w query "No specific context available." conversation_history in
  ret (response, []).

Definition run (w : World) (query : string) (strategy : StrategyArg)
  (documents : option (list Document.t)) (scores : option (list Q))
  (web_result : option WebSearchResult.t)
  (conversation_history : option History) : M (string * list ReferenceLink.t) :=
  if strategy_is strategy "kb_only"
  then generate_from_kb w query documents scores conversation_history
  else if strategy_is strategy "web_only"
  then generate_from_web w query web_result conversation_history
  else if strategy_is strategy "hybrid"
  then generate_hybrid w query documents scores web_result conversation_history
  else generate_without_context w query conversation_history.

End GenerationAgent.

(** ** [agents/orchestrator.py] *)

Module Orchestrator.

Record t := mk { evaluation_agent : EvaluationAgent.t }.

Definition process_image (w : World) (query : string) (image_bytes : list Byte.byte)
  : M string :=
  invoke (ImageModel query image_bytes) (fun tr => image_model w tr query image_bytes).

(** The first lines of [run]: a non-empty image replaces the query by its
    description. *)
Definition effective_query (w : World) (query : string)
  (image_bytes : option (list Byte.byte)) : M string :=
  match image_bytes with
  | Some (b :: bs) => process_image w query (b :: bs)
  | _ => ret query
  end.

(** Step 5 of [run]: the documents reported with the answer. *)
Definition relevant_docs_of (self : t) (documents : list Document.t) (scores : list Q)
  : list RelevantDocument.t :=
  let relevant_docs :=
    List.map
      (fun pair : Document.t * Q =>
         RelevantDocument.mk (Document.preview (fst pair)) (snd pair)
           (Py.dict_get (Document.metadata (fst pair)) "url" "No URL available"))
      (List.filter
         (fun pair : Document.t * Q =>
            Qle_bool (EvaluationAgent.lower_threshold (evaluation_agent self)) (snd pair))
         (Py.zip documents scores)) in
  Py.sorted_desc RelevantDocument.score relevant_docs.

Definition run (self : t) (w : World) (query : string)
  (image_bytes : option (list Byte.byte)) (conversation_history : option History)
  : M QueryResult.t :=
  let* query := effective_query w query image_bytes in
  (* Step 1 *)
  let* retrieval := RetrievalAgent.run w query in
  let retrieval_performed := fst retrieval in
  let documents := snd retrieval in
  if negb retrieval_performed then
    (* [run(query, conversation_history, "none")]: the history lands in the
       [strategy] position and ["none"] in [documents], which the branch
       taken never reads; [conversation_history] keeps its default. *)
    let* generation_result :=
      GenerationAgent.run w query (GenerationAgent.StrategyHistory conversation_history)
        None None None None in
    ret (QueryResult.mk (fst generation_result) (snd generation_result) [])
  else
    (* Step 2 *)
    let* eval_result := EvaluationAgent.run (evaluation_agent self) w query documents in
    let strategy := snd eval_result in
    let relevance_scores := fst eval_result in
    (* Step 3 *)
    let* web_result :=
      if Py.str_in strategy ["web_only"; "hybrid"]
      then let* r := WebSearchAgent.run w query in ret (Some r)
      else ret None in
    (* Step 4 *)
    let scores := List.map RelevanceScore.score relevance_scores in
    let* generation_result :=
      GenerationAgent.run w query (GenerationAgent.StrategyName strategy)
        (if Py.str_in strategy ["kb_only"; "hybrid"] then Some documents else None)
        (if Py.str_in strategy ["kb_only"; "hybrid"] then Some scores else None)
        (if Py.str_in strategy ["web_only"; "hybrid"] then web_result else None)
        conversation_history in
    (* Step 5 *)
    let final_response := fst generation_result in
    let reference_links := snd generation_result in
    ret (QueryResult.mk final_response reference_links
           (relevant_docs_of self documents scores)).

End Orchestrator.

(** ** [main.py] *)

Module Main.

(** What [generate_response] hands back: a bare string, or a pair whose
    second component is [None] and whose first is the result or a string. *)
Inductive Response :=
| Text (message : string)
| ResultPair (result : QueryResult.t)
| TextPair (message : string).

Definition no_input_message : string :=
  "I didn't receive any input. Please try again with a question or message.".

Definition apology : string :=
  "Sorry, I encountered an error while processing your request. Please try again.".

Definition generate_response (orchestrator : Orchestrator.t) (w : World)
  (prompt : string) (image_bytes : option (list Byte.byte))
  (conversation_history : option History) : M Response :=
  if negb (Py.truthy prompt) then ret (Text no_input_message)
  else
    try_except
      (let* result := Orchestrator.run orchestrator w prompt image_bytes conversation_history in
       ret (ResultPair result))
      (fun _ => ret (TextPair apology)).

End Main.

(** ** [Scripts/combined_rag_final.py] *)

(** An entry of ["reference_links"]: the values are whatever the search
    results held, not necessarily strings. *)
Module RagLink.
Record t := mk { title : Json.t; url : Json.t }.
End RagLink.

(** The dictionary [run] returns; an entry of ["relevant_docs"] has the three
    keys of a [RelevantDocument]. *)
Module RagResult.
Record t := mk {
  final_response : string;
  reference_links : list RagLink.t;
  relevant_docs : list RelevantDocument.t
}.
End RagResult.

Module CombinedRAG.

Record t := mk { lower_threshold : Q; upper_threshold : Q; top_k : nat }.

(** A retrieved passage [(page_content, metadata)] and a passage kept as
    relevant [(context, metadata, score)]. *)
Definition Context : Type := string * gmap string string.
Definition ScoredContext : Type := string * gmap string string * Q.

(** A graded answer [(response, support, utility, metadata)]. *)
Record Candidate := mkCandidate {
  response : string;
  support : string;
  utility : Z;
  source_metadata : gmap string string
}.

(** The three lists the evaluation loop of [run] fills. *)
Record Evaluation := mkEvaluation {
  relevant_docs : list RelevantDocument.t;
  eval_scores : list Q;
  relevant_contexts : list ScoredContext
}.

(** The branch [run] takes after the evaluation loop. *)
Inductive Action :=
| WebSearch
| Combine
| SelfRAG.

Definition evaluate_document_relevance (w : World) (query document : string) : M Q :=
  invoke (NumericalRelevanceChain query document)
    (fun tr => numerical_relevance_chain w tr query document).

Definition rewrite_query (w : World) (query : string) : M string :=
  let* r := invoke (QueryRewriteChain query) (fun tr => query_rewrite_chain w tr query) in
  ret (Py.strip r).

Definition knowledge_refinement (w : World) (document : string) : M (list string) :=
  let* result := invoke (KnowledgeRefinementChain document)
                   (fun tr => knowledge_refinement_chain w tr document) in
  ret (List.map Py.strip
         (List.filter (fun point => Py.truthy (Py.strip point)) (Py.split_lines result))).

(** A source [(title, link)] of the web search. *)
Definition WebSource : Type := Json.t * Json.t.

(** [[(result.get('title', 'Untitled'), result.get('link', '')) for result in
    results]]; only [json.JSONDecodeError] is caught. *)
Definition web_sources_of (w : World) (web_results : string) : Result (list WebSource) :=
  match json_loads w web_results with
  | Some results =>
      let? items := Json.iter results in
      fold_result items
        (fun sources result =>
           let? title := Json.get result "title" (Json.Str "Untitled") in
           let? link := Json.get result "link" (Json.Str "") in
           Ok (sources ++ [(title, link)]))
        []
  | None => Ok []
  end.

(** Returns (web_knowledge, sources). *)
Definition perform_web_search (w : World) (query : string)
  : M (string * list WebSource) :=
  let* rewritten_query := rewrite_query w query in
  let* web_results := invoke (SearchTool rewritten_query)
                        (fun tr => search_tool w tr rewritten_query) in
  let* key_points := knowledge_refinement w web_results in
  let web_knowledge := Py.join Py.nl key_points in
  let* sources := lift (web_sources_of w web_results) in
  ret (web_knowledge, sources).

(** The body of the evaluation loop (Step 3): the numerical score first, then
    the binary judgment. *)
Definition evaluate_context (self : t) (w : World) (query : string)
  (st : Evaluation) (doc : Context) : M Evaluation :=
  let context := fst doc in
  let metadata := snd doc in
  let* score := evaluate_document_relevance w query context in
  let eval_scores' := eval_scores st ++ [score] in
  let relevant_docs' :=
    if Qle_bool (lower_threshold self) score
    then relevant_docs st ++
         [RelevantDocument.mk
            (if (200 <? String.length context)%nat
             then Py.slice_to 200 context +:+ "..." else context)
            score
            (Py.dict_get metadata "parent_url" "No URL available")]
    else relevant_docs st in
  let* r := invoke (RelevanceChain query context)
              (fun tr => relevance_chain w tr query context) in
  let relevance := Py.lower (Py.strip r) in
  let relevant_contexts' :=
    if String.eqb relevance "relevant"
    then relevant_contexts st ++ [(context, metadata, score)]
    else relevant_contexts st in
  ret (mkEvaluation relevant_docs' eval_scores' relevant_contexts').

(** [max(eval_scores) if eval_scores else 0] *)
Definition max_score_of (eval_scores : list Q) : Q :=
  match eval_scores with
  | [] => 0%Q
  | first :: rest => Py.max_from Py.Qgtb first rest
  end.

(** The [if]/[elif]/[else] after the loop. *)
Definition action (self : t) (eval_scores : list Q) (relevant_contexts : list ScoredContext)
  : Action :=
  let max_score := max_score_of eval_scores in
  if match relevant_contexts with [] => true | _ => false end
     || Py.Qltb max_score (lower_threshold self)
  then WebSearch
  else if Qle_bool (lower_threshold self) max_score
          && Py.Qltb max_score (upper_threshold self)
  then Combine
  else SelfRAG.

(** The links appended for the web sources: those whose link is true. *)
Definition web_reference_links (web_sources : list WebSource) : list RagLink.t :=
  List.flat_map
    (fun source : WebSource =>
       if Json.truthy (snd source) then [RagLink.mk (fst source) (snd source)] else [])
    web_sources.

(** [[f"{title}: {link}" if link else title for title, link in web_sources]]
    joined by line feeds; [join] accepts only strings ([TypeError]). *)
Definition web_sources_text (w : World) (web_sources : list WebSource) : Result string :=
  let? lines :=
    fold_result web_sources
      (fun lines source =>
         if Json.truthy (snd source)
         then Ok (lines ++ [format_value w (fst source) +:+ ": "
                            +:+ format_value w (snd source)])
         else match fst source with
              | Json.Str title => Ok (lines ++ [title])
              | _ => Raise TypeError
              end)
      [] in
  Ok (Py.join Py.nl lines).

(** Steps 4 to 6 for one relevant context. *)
Definition grade_context (w : World) (query : string)
  (responses : list Candidate) (rc : ScoredContext) : M (list Candidate) :=
  let context := fst (fst rc) in
  let metadata := snd (fst rc) in
  let* response := invoke (GenerationChain query context None)
                     (fun tr => generation_chain w tr query context None) in
  let* s := invoke (SupportChain response context)
              (fun tr => support_chain w tr response context) in
  let support := Py.lower (Py.strip s) in
  let* utility := invoke (UtilityChain query response)
                    (fun tr => utility_chain w tr query response) in
  ret (responses ++ [mkCandidate response support utility metadata]).

(** [lambda x: (x[1] == 'fully supported', x[2])] *)
Definition grade_key (x : Candidate) : bool * Z :=
  (String.eqb (support x) "fully supported", utility x).

(** [a > b] on such keys: tuples compare at the first position where they
    differ, and [False < True]. *)
Definition key_gt (a b : bool * Z) : bool :=
  if Bool.eqb (fst a) (fst b) then (snd b <? snd a)%Z
  else fst a && negb (fst b).

(** [max(responses, key=...)] *)
Definition select_best (responses : list Candidate) : option Candidate :=
  Py.max_by (fun x y => key_gt (grade_key x) (grade_key y)) responses.

Definition run (self : t) (w : World) (query : string) : M RagResult.t :=
  (* Step 1 *)
  let* r := invoke (RetrievalChain query) (fun tr => retrieval_chain w tr query) in
  let retrieval_decision := Py.lower (Py.strip r) in
  if String.eqb retrieval_decision "yes" then
    (* Step 2 *)
    let* contexts := invoke (SimilaritySearch query (top_k self))
                       (fun tr => similarity_search w tr query (top_k self)) in
    (* Step 3 *)
    let* ev := for_each contexts (evaluate_context self w query) (mkEvaluation [] [] []) in
    match action self (eval_scores ev) (relevant_contexts ev) with
    | WebSearch =>
        let* ws := perform_web_search w query in
        let web_knowledge := fst ws in
        let web_sources := snd ws in
        let reference_links := web_reference_links web_sources in
        let* sources_text := lift (web_sources_text w web_sources) in
        let* final_response :=
          invoke (GenerationChain query
                    ("Web search results:" +:+ Py.nl +:+ web_knowledge +:+ Py.nl +:+ Py.nl
                     +:+ "Sources:" +:+ Py.nl +:+ sources_text) None)
            (fun tr => generation_chain w tr query
                    ("Web search results:" +:+ Py.nl +:+ web_knowledge +:+ Py.nl +:+ Py.nl
                     +:+ "Sources:" +:+ Py.nl +:+ sources_text) None) in
        ret (RagResult.mk final_response reference_links (relevant_docs ev))
    | Combine =>
        match Py.max_by (fun x y : ScoredContext => Py.Qgtb (snd x) (snd y))
                (relevant_contexts ev) with
        | None => raise ValueError
        | Some best_context =>
            let* key_points := knowledge_refinement w (fst (fst best_context)) in
            let retrieved_knowledge := Py.join Py.nl key_points in
            let doc_url := Py.dict_get (snd (fst best_context)) "url" "No URL available" in
            let links :=
              if negb (String.eqb doc_url "No URL available")
              then [RagLink.mk (Json.Str "Retrieved document") (Json.Str doc_url)]
              else [] in
            let* ws := perform_web_search w query in
            let web_knowledge := fst ws in
            let web_sources := snd ws in
            let reference_links := links ++ web_reference_links web_sources in
            let combined_context :=
              "Retrieved knowledge:" +:+ Py.nl +:+ retrieved_knowledge +:+ Py.nl +:+ Py.nl
              +:+ "Web knowledge:" +:+ Py.nl +:+ web_knowledge in
            let sources_text :=
              "Retrieved from database: " +:+ doc_url +:+ Py.nl +:+
              Py.join Py.nl
                (List.map (fun source : WebSource =>
                             if Json.truthy (snd source)
                             then "Web: " +:+ format_value w (fst source) +:+ ": "
                                  +:+ format_value w (snd source)
                             else "Web: " +:+ format_value w (fst source))
                          web_sources) in
            let* final_response :=
              invoke (GenerationChain query
                        (combined_context +:+ Py.nl +:+ Py.nl +:+ "Sources:" +:+ Py.nl
                         +:+ sources_text) None)
                (fun tr => generation_chain w tr query
                        (combined_context +:+ Py.nl +:+ Py.nl +:+ "Sources:" +:+ Py.nl
                         +:+ sources_text) None) in
            ret (RagResult.mk final_response reference_links (relevant_docs ev))
        end
    | SelfRAG =>
        (* Steps 4 to 6 *)
        let* responses := for_each (relevant_contexts ev) (grade_context w query) [] in
        match select_best responses with
        | None => raise ValueError
        | Some best_response =>
            let source_url :=
              Py.dict_get (source_metadata best_response) "url" "No source URL available" in
            let reference_links :=
              if negb (String.eqb source_url "No source URL available")
              then [RagLink.mk (Json.Str "Primary source") (Json.Str source_url)]
              else [] in
            ret (RagResult.mk (response best_response) reference_links (relevant_docs ev))
        end
    end
  else
    let* final_response :=
      invoke (GenerationChain query "No retrieval necessary." None)
        (fun tr => generation_chain w tr query "No retrieval necessary." None) in
    ret (RagResult.mk final_response [] []).

End CombinedRAG.

(** ** [main.py]: storing a turn in the conversation memory *)

Module Zep.

Definition MAX_ZEP_MESSAGE_LENGTH : nat := 2400.

(** A message as it is handed to the memory client.  [truncated] stands for
    the metadata entry ["truncated": True], which is absent otherwise;
    [timestamp] is the clock reading put in the metadata. *)
Record Message := mkMessage {
  role : string;
  role_type : string;
  content : string;
  timestamp : string;
  truncated : bool
}.

(** The message built by [add_message_to_zep]: longer contents are cut to
    [MAX_ZEP_MESSAGE_LENGTH - 100] characters and marked. *)
Definition memory_message (now : string) (role role_type content : string) : Message :=
  if (MAX_ZEP_MESSAGE_LENGTH <? String.length content)%nat
  then
    let summary := Py.slice_to (MAX_ZEP_MESSAGE_LENGTH - 100) content
                   +:+ "... [content truncated]" in
    mkMessage role role_type summary now true
  else mkMessage role role_type content now false.

(** [add_message_to_zep]: [memory_add] is the client's call, which may raise;
    every exception is caught and reported as [False]. *)
Definition add_message_to_zep (memory_add : string -> list Message -> Result unit)
  (now : string) (session_id role role_type content : string) : bool :=
  match memory_add session_id [memory_message now role role_type content] with
  | Ok _ => true
  | Raise _ => false
  end.

End Zep.

(** ** Vocabulary of the statements *)

(** [m] is the largest of the scores [l] (up to equality of rationals). *)
Definition is_max (m : Q) (l : list Q) : Prop :=
  (exists x, In x l /\ x == m) /\ (forall x, In x l -> x <= m).

(** Descending order of reported documents. *)
Definition score_desc (a b : RelevantDocument.t) : Prop :=
  RelevantDocument.score b <= RelevantDocument.score a.

(** The lexicographic order on grading keys, [false] below [true]. *)
Definition key_lt (a b : bool * Z) : Prop :=
  (fst a = false /\ fst b = true) \/ (fst a = fst b /\ (snd a < snd b)%Z).

Definition key_le (a b : bool * Z) : Prop := key_lt a b \/ a = b.

(** The support grade of a graded answer is exactly the text
    [fully supported]. *)
Definition fully_supported (x : CombinedRAG.Candidate) : Prop :=
  CombinedRAG.support x = "fully supported".

(** [x] ranks strictly below [y]: [y] is fully supported and [x] is not, or
    they are in the same support tier and [y] has the larger utility. *)
Definition ranks_below (x y : CombinedRAG.Candidate) : Prop :=
  (~ fully_supported x /\ fully_supported y) \/
  ((fully_supported x <-> fully_supported y) /\
   (CombinedRAG.utility x < CombinedRAG.utility y)%Z).

(** [x] ranks below [y] or level with it (same tier, same utility). *)
Definition ranks_not_above (x y : CombinedRAG.Candidate) : Prop :=
  ranks_below x y \/
  ((fully_supported x <-> fully_supported y) /\
   CombinedRAG.utility x = CombinedRAG.utility y).

(** Calls that reach the document store or the web search service. *)
Definition store_or_web_call (c : Call) : bool :=
  match c with
  | SimilaritySearch _ _ | SearchTool _ => true
  | _ => false
  end.

(** What the evaluation loop records for a document: the score the world
    gave, and the flag "the normalised binary answer is exactly [relevant]". *)
Definition judged_as (w : World) (query : string) (doc : Document.t)
  (r : RelevanceScore.t) : Prop :=
  exists t s,
    relevance_chain w t query (Document.content doc) = Ok s /\
    numerical_relevance_chain w (t ++ [RelevanceChain query (Document.content doc)])
      query (Document.content doc) = Ok (RelevanceScore.score r) /\
    (RelevanceScore.is_relevant r = true <-> Py.lower (Py.strip s) = "relevant").










(** Calls made by a web search: rewriting, searching, refining. *)
Definition web_search_call (c : Call) : bool :=
  match c with
  | QueryRewriteChain _ | SearchTool _ | KnowledgeRefinementChain _ => true
  | _ => false
  end.

(** The two judgments requested for each document, the binary one first. *)
Definition relevance_calls (query : string) (documents : list Document.t) : list Call :=
  List.flat_map
    (fun doc => [RelevanceChain query (Document.content doc);
                 NumericalRelevanceChain query (Document.content doc)])
    documents.

(** The entry of ["relevant_docs"] that [CombinedRAG.run] writes for a
    passage and its score. *)
Definition reported_passage (doc : CombinedRAG.Context) (score : Q) : RelevantDocument.t :=
  RelevantDocument.mk (Document.preview (Document.mk (fst doc) (snd doc))) score
    (default "No URL available" (snd doc !! "parent_url")).


(** The text of the field [key] of a parsed value: defined when the value is
    an object that has the field with a string in it. *)
Definition text_field (key : string) (v : Json.t) : option string :=
  match v with
  | Json.Object fields =>
      match Json.lookup key fields with
      | Some (Json.Str s) => Some s
      | _ => None
      end
  | _ => None
  end.

Definition is_object (v : Json.t) : bool :=
  match v with
  | Json.Object _ => true
  | _ => false
  end.

(** A search result from which a reference link, or nothing, can be taken:
    an object whose [link], when it is true, is a string and comes with a
    string [title] or with none. *)
Definition usable_result (v : Json.t) : Prop :=
  exists fields,
    v = Json.Object fields /\
    (Json.truthy (default (Json.Str "") (Json.lookup "link" fields)) = true ->
     (exists url, Json.lookup "link" fields = Some (Json.Str url)) /\
     (Json.lookup "title" fields = None \/
      exists title, Json.lookup "title" fields = Some (Json.Str title))).

(** The link taken from a usable result that has one. *)
Definition link_of (v : Json.t) : ReferenceLink.t :=
  ReferenceLink.mk (default "Untitled" (text_field "title" v))
                   (default "" (text_field "link" v)).

Definition has_link (v : Json.t) : bool :=
  Py.truthy (default "" (text_field "link" v)).

(** ** Worlds used in the examples *)

(** The text the scripted search tool returns. *)
Definition raw_results : string :=
  "snippet: loops, title: Loops, link: https://example.org".

(** A world scripted by the answer of the retrieval gate, the passages of the
    index, the binary and numerical judgment of each passage, and the answers
    of the refinement and generation chains. *)
Definition scripted_world (gate : string) (passages : list (string * gmap string string))
  (judge : string -> string) (grade : string -> Q)
  (refine : Result string) (generate : Result string) : World :=
  {| image_model := fun _ _ _ => Ok "Error Description";
     retrieval_chain := fun _ _ => Ok gate;
     similarity_search := fun _ _ _ => Ok passages;
     relevance_chain := fun _ _ context => Ok (judge context);
     numerical_relevance_chain := fun _ _ document => Ok (grade document);
     support_chain := fun _ _ _ => Ok "Fully supported";
     utility_chain := fun _ _ _ => Ok 4%Z;
     query_rewrite_chain := fun _ query => Ok query;
     search_tool := fun _ _ => Ok raw_results;
     knowledge_refinement_chain := fun _ _ => refine;
     generation_chain := fun _ _ _ _ => generate;
     json_loads := fun _ => None;
     format_2f := fun q => if Qle_bool (85 # 100) q then "0.90" else "0.80";
     py_str := fun _ => "None" |}.

Definition default_thresholds : EvaluationAgent.t := EvaluationAgent.mk (3 # 10) (7 # 10).

Definition default_orchestrator : Orchestrator.t := Orchestrator.mk default_thresholds.

Definition default_rag : CombinedRAG.t := CombinedRAG.mk (3 # 10) (7 # 10) 3.

(** The index returns two passages; [A] is judged relevant with score 0.9 and
    [B] irrelevant with score 0.8. *)
Definition two_passages : list (string * gmap string string) :=
  [("A", {[ "url" := "https://example.org/a" ]}); ("B", ∅)].

Definition judge_only_A (context : string) : string :=
  if String.eqb context "A" then "Relevant" else "Irrelevant".

Definition grade_A_higher (document : string) : Q :=
  if String.eqb document "A" then 9 # 10 else 8 # 10.

Definition kb_world : World :=
  scripted_world "Yes" two_passages judge_only_A grade_A_higher
    (Ok "- key point") (Ok "answer").

(** One passage with a high score that is judged irrelevant. *)
Definition irrelevant_world : World :=
  scripted_world "Yes" [("A", ∅)] (fun _ => "Irrelevant") (fun _ => 9 # 10)
    (Ok "- key point") (Ok "answer").

(** The gate declines retrieval. *)
Definition no_retrieval_world : World :=
  scripted_world "No" two_passages judge_only_A grade_A_higher
    (Ok "- key point") (Ok "answer").

(** Low scores send the pipeline to the web; the refinement chain answers
    with one key point, resp. raises. *)
Definition web_world : World :=
  scripted_world "Yes" two_passages judge_only_A (fun _ => 1 # 10)
    (Ok "- key point") (Ok "answer").

Definition refinement_fails_world : World :=
  scripted_world "Yes" two_passages judge_only_A (fun _ => 1 # 10)
    (Raise (ServiceCallFailed "refinement")) (Ok "answer").

(** The generation chain raises. *)
Definition generation_fails_world : World :=
  scripted_world "No" [] judge_only_A grade_A_higher
    (Ok "- key point") (Raise (ServiceCallFailed "generation")).

(** The gate answers with a trailing full stop. *)
Definition punctuated_world : World :=
  scripted_world "Yes." two_passages judge_only_A grade_A_higher
    (Ok "- key point") (Ok "answer").

(** The search tool answers with JSON text that parses into three results,
    one without a link and one without a title; the only passage has a
    [source_url] and a middle score, so that the strategy is [hybrid]. *)
Definition parsed_results : Json.t :=
  Json.Array
    [ Json.Object [("title", Json.Str "Loops"); ("link", Json.Str "https://example.org/loops")];
      Json.Object [("title", Json.Str "No link")];
      Json.Object [("link", Json.Str "https://example.org/untitled")] ].

(** The JSON text of which [parsed_results] is the value. *)
Definition json_results : string :=
  let q := String "034" EmptyString in
  "[{" +:+ q +:+ "title" +:+ q +:+ ": " +:+ q +:+ "Loops" +:+ q +:+ ", "
  +:+ q +:+ "link" +:+ q +:+ ": " +:+ q +:+ "https://example.org/loops" +:+ q +:+ "}, {"
  +:+ q +:+ "title" +:+ q +:+ ": " +:+ q +:+ "No link" +:+ q +:+ "}, {"
  +:+ q +:+ "link" +:+ q +:+ ": " +:+ q +:+ "https://example.org/untitled" +:+ q +:+ "}]".

Definition linked_world : World :=
  let base :=
    scripted_world "Yes" [("A", {[ "source_url" := "https://example.org/a" ]})]
      (fun _ => "Relevant") (fun _ => 5 # 10) (Ok "- key point") (Ok "answer") in
  {| image_model := image_model base;
     retrieval_chain := retrieval_chain base;
     similarity_search := similarity_search base;
     relevance_chain := relevance_chain base;
     numerical_relevance_chain := numerical_relevance_chain base;
     support_chain := support_chain base;
     utility_chain := utility_chain base;
     query_rewrite_chain := query_rewrite_chain base;
     search_tool := fun _ _ => Ok json_results;
     knowledge_refinement_chain := knowledge_refinement_chain base;
     generation_chain := generation_chain base;
     json_loads := fun text =>
       if String.eqb text json_results then Some parsed_results else None;
     format_2f := fun _ => "0.50";
     py_str := py_str base |}.


(** * Properties *)

(** ** The monad *)

Lemma bind_ok {A B} (c : M A) (k : A -> M B) tr a tr1 :
  c tr = (Ok a, tr1) -> bind c k tr = k a tr1.
Proof. intros H. unfold bind. now rewrite H. Qed.

Lemma bind_raise {A B} (c : M A) (k : A -> M B) tr e tr1 :
  c tr = (Raise e, tr1) -> bind c k tr = (Raise e, tr1).
Proof. intros H. unfold bind. now rewrite H. Qed.

Lemma bind_inv_ok {A B} (c : M A) (k : A -> M B) tr b tr2 :
  bind c k tr = (Ok b, tr2) ->
  exists a tr1, c tr = (Ok a, tr1) /\ k a tr1 = (Ok b, tr2).
Proof.
  unfold bind. destruct (c tr) as [[a|e] tr1]; intros H.
  - now exists a, tr1.
  - discriminate.
Qed.


Lemma invoke_eq {A} (c : Call) (answer : Trace -> Result A) tr :
  invoke c answer tr = (answer tr, tr ++ [c]).
Proof. reflexivity. Qed.



(** ** Strings *)

Lemma length_append (s1 s2 : string) :
  String.length (s1 +:+ s2) = (String.length s1 + String.length s2)%nat.
Proof. induction s1 as [|c s1 IH]; simpl; [reflexivity | now rewrite IH]. Qed.

Lemma length_slice_to (n : nat) (s : string) :
  String.length (Py.slice_to n s) = Nat.min n (String.length s).
Proof.
  unfold Py.slice_to. revert s.
  induction n as [|n IH]; intros [|c s]; simpl; try reflexivity.
  now rewrite IH.
Qed.

Lemma slice_to_prefix (n : nat) (s : string) :
  exists rest, s = Py.slice_to n s +:+ rest.
Proof.
  unfold Py.slice_to. revert s.
  induction n as [|n IH]; intros [|c s]; simpl.
  - now exists "".
  - now exists (String c s).
  - now exists "".
  - destruct (IH s) as [rest Hrest]. exists rest.
    change (String c s = String c (substring 0 n s +:+ rest)). now rewrite <- Hrest.
Qed.

(** The preview at the default bound. *)
Lemma preview_eq (d : Document.t) :
  Document.preview d =
    if (200 <? String.length (Document.content d))%nat
    then Py.slice_to 200 (Document.content d) +:+ "..."
    else Document.content d.
Proof.
  unfold Document.preview, Document.preview_n, Py.slice_to_int.
  change (0 <=? 200)%Z with true. cbv iota.
  change (Z.to_nat 200) with 200%nat.
  destruct (Nat.ltb_spec 200 (String.length (Document.content d))) as [Hlt|Hle];
    destruct (Z.ltb_spec 200 (Z.of_nat (String.length (Document.content d))));
    first [reflexivity | lia].
Qed.

Lemma length_preview (d : Document.t) :
  (String.length (Document.preview d) <= 203)%nat.
Proof.
  rewrite preview_eq.
  destruct (Nat.ltb_spec 200 (String.length (Document.content d))) as [Hlt|Hle].
  - rewrite length_append, length_slice_to.
    change (String.length "...") with 3%nat. lia.
  - lia.
Qed.

(** ** Sorting and the reported documents *)

Lemma Forall_insert_desc {A} (key : A -> Q) (P : A -> Prop) x l :
  P x -> Forall P l -> Forall P (Py.insert_desc key x l).
Proof.
  intros Hx Hl. induction Hl as [|y t Hy Ht IH]; simpl.
  - now constructor.
  - destruct (Py.Qgtb (key y) (key x)); repeat constructor; assumption.
Qed.

Lemma Forall_sorted_desc {A} (key : A -> Q) (P : A -> Prop) l :
  Forall P l -> Forall P (Py.sorted_desc key l).
Proof.
  induction 1 as [|x t Hx Ht IH]; simpl.
  - constructor.
  - now apply Forall_insert_desc.
Qed.

Lemma Qgtb_false x y : Py.Qgtb x y = false <-> x <= y.
Proof.
  unfold Py.Qgtb. rewrite negb_false_iff. apply Qle_bool_iff.
Qed.

Lemma Qgtb_true x y : Py.Qgtb x y = true <-> y < x.
Proof.
  unfold Py.Qgtb. rewrite negb_true_iff. split.
  - intros H. apply Qnot_le_lt. intros Hle. apply Qle_bool_iff in Hle. congruence.
  - intros H. destruct (Qle_bool x y) eqn:E; [|reflexivity].
    apply Qle_bool_iff in E. exfalso. eapply Qlt_not_le; eassumption.
Qed.

Lemma Qltb_true x y : Py.Qltb x y = true <-> x < y.
Proof. unfold Py.Qltb. apply (Qgtb_true y x). Qed.

Lemma Qltb_false x y : Py.Qltb x y = false <-> y <= x.
Proof. unfold Py.Qltb. apply (Qgtb_false y x). Qed.

Lemma permutation_insert_desc {A} (key : A -> Q) x l :
  Permutation (x :: l) (Py.insert_desc key x l).
Proof.
  induction l as [|y t IH]; simpl.
  - reflexivity.
  - destruct (Py.Qgtb (key y) (key x)).
    + rewrite perm_swap. now constructor.
    + reflexivity.
Qed.

Lemma permutation_sorted_desc {A} (key : A -> Q) l :
  Permutation l (Py.sorted_desc key l).
Proof.
  induction l as [|x t IH]; simpl.
  - constructor.
  - rewrite <- permutation_insert_desc. now constructor.
Qed.

Lemma strongly_sorted_insert_desc {A} (key : A -> Q) x l :
  StronglySorted (fun a b => key b <= key a) l ->
  StronglySorted (fun a b => key b <= key a) (Py.insert_desc key x l).
Proof.
  induction 1 as [|y t Hs IH Hy]; simpl.
  - repeat constructor.
  - destruct (Py.Qgtb (key y) (key x)) eqn:E.
    + constructor; [assumption|].
      apply Forall_insert_desc; [|assumption].
      apply Qgtb_true in E. now apply Qlt_le_weak.
    + apply Qgtb_false in E.
      constructor; [now constructor|].
      constructor; [assumption|].
      eapply List.Forall_impl; [|exact Hy].
      simpl. intros z Hz. now apply Qle_trans with (key y).
Qed.

Lemma strongly_sorted_sorted_desc {A} (key : A -> Q) l :
  StronglySorted (fun a b => key b <= key a) (Py.sorted_desc key l).
Proof.
  induction l as [|x t IH]; simpl.
  - constructor.
  - now apply strongly_sorted_insert_desc.
Qed.

Lemma ret_inv {A} (a b : A) tr tr' : ret a tr = (Ok b, tr') -> a = b /\ tr = tr'.
Proof. unfold ret. intros H. now inversion H. Qed.

(** The documents reported by a run of the orchestrator: none on the
    no-retrieval path, otherwise those computed by Step 5. *)
Lemma run_relevant_docs self w query image_bytes history tr result tr' :
  Orchestrator.run self w query image_bytes history tr = (Ok result, tr') ->
  QueryResult.relevant_docs result = [] \/
  exists documents scores,
    QueryResult.relevant_docs result = Orchestrator.relevant_docs_of self documents scores.
Proof.
  unfold Orchestrator.run. intros H.
  apply bind_inv_ok in H as (q & tr1 & _ & H).
  apply bind_inv_ok in H as (r & tr2 & _ & H).
  destruct (negb (fst r)).
  - apply bind_inv_ok in H as (g & tr3 & _ & H).
    apply ret_inv in H as [<- _]. now left.
  - apply bind_inv_ok in H as (ev & tr3 & _ & H).
    apply bind_inv_ok in H as (wr & tr4 & _ & H).
    apply bind_inv_ok in H as (g & tr5 & _ & H).
    apply ret_inv in H as [<- _]. right. eauto.
Qed.

Lemma relevant_docs_of_sorted self documents scores :
  StronglySorted score_desc (Orchestrator.relevant_docs_of self documents scores).
Proof. unfold Orchestrator.relevant_docs_of. apply strongly_sorted_sorted_desc. Qed.

Lemma relevant_docs_of_threshold self documents scores :
  Forall (fun d => EvaluationAgent.lower_threshold (Orchestrator.evaluation_agent self)
                   <= RelevantDocument.score d)
         (Orchestrator.relevant_docs_of self documents scores).
Proof.
  unfold Orchestrator.relevant_docs_of.
  apply Forall_sorted_desc, List.Forall_forall.
  intros d Hd. apply List.in_map_iff in Hd as (pair & <- & Hpair).
  apply List.filter_In in Hpair as [_ Hle]. simpl.
  now apply Qle_bool_iff.
Qed.

Lemma relevant_docs_of_preview self documents scores :
  Forall (fun d => exists doc, In doc documents
                               /\ RelevantDocument.content_preview d = Document.preview doc)
         (Orchestrator.relevant_docs_of self documents scores).
Proof.
  unfold Orchestrator.relevant_docs_of.
  apply Forall_sorted_desc, List.Forall_forall.
  intros d Hd. apply List.in_map_iff in Hd as (pair & <- & Hpair).
  apply List.filter_In in Hpair as [Hin _]. simpl.
  exists (fst pair). split; [|reflexivity].
  clear - Hin. revert scores Hin.
  induction documents as [|x xs IH]; intros [|y ys]; simpl; try tauto.
  intros [<-|Hin]; [now left | right; eauto].
Qed.

(** C3.  In every [QueryResult] returned by [Orchestrator.run] the reported
    documents are in descending order of score (each one scores at least as
    much as every later one) and each scores at least the lower threshold. *)
Theorem relevant_docs_sorted_above_threshold
  self w query image_bytes history tr result tr' :
  Orchestrator.run self w query image_bytes history tr = (Ok result, tr') ->
  StronglySorted score_desc (QueryResult.relevant_docs result) /\
  Forall (fun d => EvaluationAgent.lower_threshold (Orchestrator.evaluation_agent self)
                   <= RelevantDocument.score d)
         (QueryResult.relevant_docs result).
Proof.
  intros H. apply run_relevant_docs in H as [-> | (documents & scores & ->)].
  - split; constructor.
  - split; [apply relevant_docs_of_sorted | apply relevant_docs_of_threshold].
Qed.

(** C9.  [preview] returns the content unchanged when it has at most 200
    characters and otherwise its first 200 characters followed by three dots;
    a preview has at most 203 characters, and so has every [content_preview]
    reported by [Orchestrator.run], each being the preview of a retrieved
    document. *)
Theorem preview_truncates (d : Document.t) :
  ((String.length (Document.content d) <= 200)%nat ->
   Document.preview d = Document.content d) /\
  ((200 < String.length (Document.content d))%nat ->
   exists head rest,
     Document.preview d = head +:+ "..." /\
     Document.content d = head +:+ rest /\
     String.length head = 200%nat) /\
  (String.length (Document.preview d) <= 203)%nat /\
  (forall self w query image_bytes history tr result tr',
     Orchestrator.run self w query image_bytes history tr = (Ok result, tr') ->
     Forall (fun r => (String.length (RelevantDocument.content_preview r) <= 203)%nat)
            (QueryResult.relevant_docs result)).
Proof.
  repeat split.
  - intros Hle. rewrite preview_eq.
    destruct (Nat.ltb_spec 200 (String.length (Document.content d))); [lia | reflexivity].
  - intros Hlt. rewrite preview_eq.
    destruct (Nat.ltb_spec 200 (String.length (Document.content d))); [|lia].
    destruct (slice_to_prefix 200 (Document.content d)) as [rest Hrest].
    exists (Py.slice_to 200 (Document.content d)), rest.
    repeat split; [exact Hrest|]. rewrite length_slice_to. lia.
  - apply length_preview.
  - intros self w query image_bytes history tr result tr' H.
    apply run_relevant_docs in H as [-> | (documents & scores & ->)]; [constructor|].
    eapply List.Forall_impl; [|apply relevant_docs_of_preview].
    simpl. intros r (doc & _ & ->). apply length_preview.
Qed.

(** ** The maximum of the scores and the strategy bands *)

Lemma max_from_spec (l : list Q) : forall x,
  In (Py.max_from Py.Qgtb x l) (x :: l) /\
  (forall y, In y (x :: l) -> y <= Py.max_from Py.Qgtb x l).
Proof.
  induction l as [|y t IH]; intros x; simpl.
  - split; [now left|]. intros z [<-|[]]. apply Qle_refl.
  - destruct (Py.Qgtb y x) eqn:E.
    + destruct (IH y) as [Hin Hmax]. split.
      * right. exact Hin.
      * intros z [<-|Hz]; [|now apply Hmax].
        apply Qgtb_true in E. apply Qle_trans with y.
        -- now apply Qlt_le_weak.
        -- apply Hmax. now left.
    + destruct (IH x) as [Hin Hmax]. split.
      * destruct Hin as [Hin|Hin]; [now left | now right; right].
      * intros z [<-|[<-|Hz]].
        -- apply Hmax. now left.
        -- apply Qgtb_false in E. apply Qle_trans with x; [exact E|].
           apply Hmax. now left.
        -- apply Hmax. now right.
Qed.

Lemma max_from_is_max (x : Q) (l : list Q) :
  is_max (Py.max_from Py.Qgtb x l) (x :: l).
Proof.
  destruct (max_from_spec l x) as [Hin Hmax]. split; [|exact Hmax].
  exists (Py.max_from Py.Qgtb x l). split; [exact Hin | reflexivity].
Qed.

Lemma is_max_unique (m m' : Q) (l : list Q) : is_max m l -> is_max m' l -> m == m'.
Proof.
  intros [(x & Hx & Hxm) Hm] [(x' & Hx' & Hxm') Hm'].
  apply Qle_antisym.
  - rewrite <- Hxm. now apply Hm'.
  - rewrite <- Hxm'. now apply Hm.
Qed.


(** The band of a maximal score, as [determine_retrieval_strategy] tests it. *)
Lemma strategy_of_max (self : EvaluationAgent.t) (scores : list RelevanceScore.t) (m : Q) :
  is_max m (List.map RelevanceScore.score scores) ->
  EvaluationAgent.determine_retrieval_strategy self scores =
    if Py.Qltb m (EvaluationAgent.lower_threshold self) then "web_only"
    else if Qle_bool (EvaluationAgent.upper_threshold self) m then "kb_only"
    else "hybrid".
Proof.
  unfold EvaluationAgent.determine_retrieval_strategy.
  destruct (List.map RelevanceScore.score scores) as [|first rest].
  - intros [(x & [] & _) _].
  - intros Hm. pose proof (is_max_unique _ _ _ (max_from_is_max first rest) Hm) as E.
    cbv zeta. unfold Py.Qltb.
    rewrite (Qleb_comp _ _ (Qeq_refl (EvaluationAgent.lower_threshold self)) _ _ E).
    rewrite (Qleb_comp _ _ (Qeq_refl (EvaluationAgent.upper_threshold self)) _ _ E).
    reflexivity.
Qed.

(** C1.  With [lower_threshold < upper_threshold]: the selector answers
    web-only for the empty list; a non-empty list of scores has a maximum,
    and for scores with maximum [m] the selector answers web-only when
    [m < lower_threshold], hybrid when [lower_threshold <= m < upper_threshold]
    and knowledge-base-only when [m >= upper_threshold]. *)
Theorem strategy_bands (self : EvaluationAgent.t) (scores : list RelevanceScore.t) :
  EvaluationAgent.lower_threshold self < EvaluationAgent.upper_threshold self ->
  (scores = [] -> EvaluationAgent.determine_retrieval_strategy self scores = "web_only") /\
  (scores <> [] -> exists m, is_max m (List.map RelevanceScore.score scores)) /\
  (forall m, is_max m (List.map RelevanceScore.score scores) ->
     (m < EvaluationAgent.lower_threshold self ->
      EvaluationAgent.determine_retrieval_strategy self scores = "web_only") /\
     (EvaluationAgent.lower_threshold self <= m /\ m < EvaluationAgent.upper_threshold self ->
      EvaluationAgent.determine_retrieval_strategy self scores = "hybrid") /\
     (EvaluationAgent.upper_threshold self <= m ->
      EvaluationAgent.determine_retrieval_strategy self scores = "kb_only")).
Proof.
  intros Hlu. split; [|split].
  - intros ->. reflexivity.
  - destruct scores as [|s t]; [congruence|]. intros _.
    exists (Py.max_from Py.Qgtb (RelevanceScore.score s) (List.map RelevanceScore.score t)).
    apply (max_from_is_max (RelevanceScore.score s) (List.map RelevanceScore.score t)).
  - intros m Hm. rewrite (strategy_of_max self scores m Hm). repeat split.
    + intros Hlt. apply Qltb_true in Hlt. now rewrite Hlt.
    + intros [Hle Hlt].
      apply Qltb_false in Hle. rewrite Hle.
      destruct (Qle_bool (EvaluationAgent.upper_threshold self) m) eqn:E; [|reflexivity].
      apply Qle_bool_iff in E. exfalso. eapply Qlt_not_le; eassumption.
    + intros Hle.
      assert (Hlow : EvaluationAgent.lower_threshold self <= m).
      { apply Qlt_le_weak. eapply Qlt_le_trans; eassumption. }
      apply Qltb_false in Hlow. rewrite Hlow.
      apply Qle_bool_iff in Hle. now rewrite Hle.
Qed.



(** ** Selection among graded answers *)

Lemma key_gt_true (a b : bool * Z) : CombinedRAG.key_gt a b = true <-> key_lt b a.
Proof.
  destruct a as [[|] ua], b as [[|] ub]; unfold CombinedRAG.key_gt, key_lt; simpl;
    rewrite ?Z.ltb_lt; intuition (try discriminate; try lia).
Qed.

Lemma key_gt_false (a b : bool * Z) : CombinedRAG.key_gt a b = false <-> key_le a b.
Proof.
  destruct a as [[|] ua], b as [[|] ub]; unfold CombinedRAG.key_gt, key_le, key_lt; simpl;
    rewrite ?Z.ltb_ge; split; intros H;
    try discriminate; try reflexivity; try tauto;
    try (destruct (Z.eq_dec ua ub); [right; congruence | left; right; split; [reflexivity|lia]]);
    try (destruct H as [[[? ?]|[? ?]]|E]; try discriminate; try lia; inversion E; lia).
Qed.

Lemma key_lt_trans (a b c : bool * Z) : key_lt a b -> key_lt b c -> key_lt a c.
Proof.
  destruct a as [[|] ua], b as [[|] ub], c as [[|] uc]; unfold key_lt; simpl;
    intuition (try discriminate; try lia).
Qed.

Lemma key_le_lt_trans (a b c : bool * Z) : key_le a b -> key_lt b c -> key_lt a c.
Proof. intros [H | ->] Hbc; [eapply key_lt_trans; eassumption | assumption]. Qed.

Lemma key_le_trans (a b c : bool * Z) : key_le a b -> key_le b c -> key_le a c.
Proof.
  intros Hab [H| <-]; [|assumption]. left. eapply key_le_lt_trans; eassumption.
Qed.

(** The running maximum of [max] is the first item with the largest key:
    items before it have a strictly smaller key and items after it a key that
    is not larger. *)
Lemma max_from_first_largest (l : list CombinedRAG.Candidate) :
  forall (pre : list CombinedRAG.Candidate) cur (mid : list CombinedRAG.Candidate),
  (forall x, In x pre -> key_lt (CombinedRAG.grade_key x) (CombinedRAG.grade_key cur)) ->
  (forall x, In x mid -> key_le (CombinedRAG.grade_key x) (CombinedRAG.grade_key cur)) ->
  let best := Py.max_from
                (fun x y => CombinedRAG.key_gt (CombinedRAG.grade_key x) (CombinedRAG.grade_key y))
                cur l in
  exists before after,
    pre ++ cur :: mid ++ l = before ++ best :: after /\
    (forall x, In x before -> key_lt (CombinedRAG.grade_key x) (CombinedRAG.grade_key best)) /\
    (forall x, In x after -> key_le (CombinedRAG.grade_key x) (CombinedRAG.grade_key best)).
Proof.
  induction l as [|y t IH]; intros pre cur mid Hpre Hmid; simpl.
  - exists pre, mid. rewrite List.app_nil_r. auto.
  - destruct (CombinedRAG.key_gt (CombinedRAG.grade_key y) (CombinedRAG.grade_key cur)) eqn:E.
    + apply key_gt_true in E.
      destruct (IH (pre ++ cur :: mid) y []) as (before & after & Heq & Hb & Ha).
      * intros x Hx. apply List.in_app_iff in Hx as [Hx|[<-|Hx]].
        -- eapply key_lt_trans; [apply Hpre|]; eassumption.
        -- exact E.
        -- eapply key_le_lt_trans; [apply Hmid|]; eassumption.
      * intros x [].
      * exists before, after. split; [|auto].
        rewrite <- Heq. simpl. now rewrite <- List.app_assoc.
    + apply key_gt_false in E.
      destruct (IH pre cur (mid ++ [y])) as (before & after & Heq & Hb & Ha).
      * exact Hpre.
      * intros x Hx. apply List.in_app_iff in Hx as [Hx|[<-|[]]]; [now apply Hmid | exact E].
      * exists before, after. split; [|auto].
        rewrite <- Heq. now rewrite <- List.app_assoc.
Qed.

Lemma grade_key_fully_supported (x : CombinedRAG.Candidate) :
  fst (CombinedRAG.grade_key x) = true <-> fully_supported x.
Proof. unfold CombinedRAG.grade_key, fully_supported. simpl. apply String.eqb_eq. Qed.

Lemma grade_key_not_fully_supported (x : CombinedRAG.Candidate) :
  fst (CombinedRAG.grade_key x) = false <-> ~ fully_supported x.
Proof.
  rewrite <- grade_key_fully_supported.
  destruct (fst (CombinedRAG.grade_key x)); split; intros H; congruence.
Qed.

Lemma grade_key_same_tier (x y : CombinedRAG.Candidate) :
  fst (CombinedRAG.grade_key x) = fst (CombinedRAG.grade_key y) <->
  (fully_supported x <-> fully_supported y).
Proof.
  rewrite <- !grade_key_fully_supported.
  destruct (fst (CombinedRAG.grade_key x)), (fst (CombinedRAG.grade_key y));
    split; intros H; try reflexivity; try tauto; try discriminate;
    destruct H as [H1 H2];
    first [specialize (H1 eq_refl); discriminate | specialize (H2 eq_refl); discriminate].
Qed.

Lemma key_lt_ranks_below (x y : CombinedRAG.Candidate) :
  key_lt (CombinedRAG.grade_key x) (CombinedRAG.grade_key y) <-> ranks_below x y.
Proof.
  unfold key_lt, ranks_below.
  rewrite grade_key_fully_supported, grade_key_not_fully_supported, grade_key_same_tier.
  reflexivity.
Qed.

Lemma key_le_ranks_not_above (x y : CombinedRAG.Candidate) :
  key_le (CombinedRAG.grade_key x) (CombinedRAG.grade_key y) <-> ranks_not_above x y.
Proof.
  unfold key_le, ranks_not_above. rewrite key_lt_ranks_below.
  split; (intros [H|H]; [now left | right]).
  - split; [apply grade_key_same_tier; now rewrite H|].
    apply (f_equal snd) in H. exact H.
  - destruct H as [Htier Hu]. apply grade_key_same_tier in Htier.
    destruct (CombinedRAG.grade_key x) as [bx ux] eqn:Ex,
             (CombinedRAG.grade_key y) as [by' uy] eqn:Ey.
    apply (f_equal snd) in Ex as Eux, Ey as Euy. simpl in *. congruence.
Qed.

(** C4.  [select_best] fails only on the empty list.  On any other list it
    returns an item [best] of the list such that every item before it ranks
    strictly below it and no item after it ranks above it, where the rank is
    the lexicographic key (support is exactly [fully supported], utility):
    the first item with the largest key.  In particular [best] is fully
    supported as soon as some item is, whatever the utilities, and no item of
    the support tier of [best] has a larger utility. *)
Theorem select_best_lexicographic (responses : list CombinedRAG.Candidate) :
  match CombinedRAG.select_best responses with
  | None => responses = []
  | Some best =>
      exists before after,
        responses = before ++ best :: after /\
        (forall x, In x before -> ranks_below x best) /\
        (forall x, In x after -> ranks_not_above x best) /\
        (forall x, In x responses ->
           CombinedRAG.support x = "fully supported" ->
           CombinedRAG.support best = "fully supported") /\
        (forall x, In x responses ->
           (CombinedRAG.support x = "fully supported" <->
            CombinedRAG.support best = "fully supported") ->
           (CombinedRAG.utility x <= CombinedRAG.utility best)%Z)
  end.
Proof.
  destruct responses as [|first rest]; simpl; [reflexivity|].
  destruct (max_from_first_largest rest [] first []) as (before & after & Heq & Hb & Ha).
  { intros x []. }
  { intros x []. }
  simpl in Heq, Hb, Ha.
  set (best := Py.max_from _ first rest) in *.
  assert (Hle : forall x, In x (first :: rest) -> ranks_not_above x best).
  { intros x Hx. rewrite Heq in Hx. apply key_le_ranks_not_above.
    apply List.in_app_iff in Hx as [Hx|[<-|Hx]];
      [left; now apply Hb | now right | now apply Ha]. }
  exists before, after.
  split; [exact Heq|]. split; [intros x Hx; apply key_lt_ranks_below; now apply Hb|].
  split; [intros x Hx; apply key_le_ranks_not_above; now apply Ha|]. split.
  - intros x Hx Hfull. specialize (Hle x Hx).
    unfold ranks_not_above, ranks_below, fully_supported in Hle. tauto.
  - intros x Hx Htier. specialize (Hle x Hx).
    unfold ranks_not_above, ranks_below, fully_supported in Hle.
    destruct Hle as [[[H1 H2]|[H1 H2]]|[H1 H2]]; [tauto | lia | lia].
Qed.

(** The example of the specification: a fully supported answer of utility 2
    is preferred to a partially supported one of utility 5. *)
Example select_best_example :
  CombinedRAG.select_best
    [CombinedRAG.mkCandidate "A" "partially supported" 5 ∅;
     CombinedRAG.mkCandidate "B" "fully supported" 2 ∅]
  = Some (CombinedRAG.mkCandidate "B" "fully supported" 2 ∅).
Proof. reflexivity. Qed.

(** ** The retrieval gate and the binary relevance judgment *)

Lemma should_retrieve_eq (w : World) (query : string) (tr : Trace) :
  RetrievalAgent.should_retrieve w query tr =
    (match retrieval_chain w tr query with
     | Ok s => Ok (String.eqb (Py.lower (Py.strip s)) "yes")
     | Raise e => Raise e
     end, tr ++ [RetrievalChain query]).
Proof.
  unfold RetrievalAgent.should_retrieve, bind, invoke, ret.
  now destruct (retrieval_chain w tr query).
Qed.

Lemma evaluate_document_eq (w : World) (query : string) (doc : Document.t) (tr : Trace) :
  EvaluationAgent.evaluate_document w query doc tr =
    match relevance_chain w tr query (Document.content doc) with
    | Ok s =>
        (match numerical_relevance_chain w
                 (tr ++ [RelevanceChain query (Document.content doc)])
                 query (Document.content doc) with
         | Ok sc => Ok (RelevanceScore.mk sc (String.eqb (Py.lower (Py.strip s)) "relevant"))
         | Raise e => Raise e
         end,
         (tr ++ [RelevanceChain query (Document.content doc)])
            ++ [NumericalRelevanceChain query (Document.content doc)])
    | Raise e => (Raise e, tr ++ [RelevanceChain query (Document.content doc)])
    end.
Proof.
  unfold EvaluationAgent.evaluate_document, bind, invoke, ret.
  destruct (relevance_chain w tr query (Document.content doc)); [|reflexivity].
  now destruct (numerical_relevance_chain w _ query (Document.content doc)).
Qed.

Lemma evaluate_relevance_loop (w : World) (query : string) (documents : list Document.t) :
  forall acc tr rs tr',
    for_each documents
      (fun results doc =>
         let* r := EvaluationAgent.evaluate_document w query doc in ret (results ++ [r]))
      acc tr = (Ok rs, tr') ->
    exists new, rs = acc ++ new /\ Forall2 (judged_as w query) documents new.
Proof.
  induction documents as [|doc rest IH]; intros acc tr rs tr' H; simpl in H.
  - apply ret_inv in H as [<- _]. exists []. split; [now rewrite List.app_nil_r | constructor].
  - apply bind_inv_ok in H as (acc' & tr1 & Hbody & H).
    apply bind_inv_ok in Hbody as (r & tr2 & Hdoc & Hret).
    apply ret_inv in Hret as [<- <-].
    apply IH in H as (new & -> & Hnew).
    exists (r :: new). split; [now rewrite <- List.app_assoc|].
    constructor; [|exact Hnew].
    rewrite evaluate_document_eq in Hdoc.
    destruct (relevance_chain w tr query (Document.content doc)) as [s|e] eqn:Hs;
      [|discriminate].
    destruct (numerical_relevance_chain w _ query (Document.content doc)) as [sc|e] eqn:Hsc;
      [|discriminate].
    inversion Hdoc; subst. exists tr, s. repeat split; try assumption.
    + simpl. apply String.eqb_eq.
    + simpl. apply String.eqb_eq.
Qed.

Lemma retrieval_run_declined (w : World) (query : string) (tr tr1 : Trace) :
  RetrievalAgent.should_retrieve w query tr = (Ok false, tr1) ->
  RetrievalAgent.run w query tr = (Ok (false, []), tr1).
Proof. intros H. unfold RetrievalAgent.run. now rewrite (bind_ok _ _ _ _ _ H). Qed.

(** C10.  Whatever text the service returns, the decision is taken and no
    exception is raised for an unrecognised answer: [should_retrieve] returns
    [True] exactly when the stripped, lower-cased answer is [yes] (and
    [RetrievalAgent.run] then returns no documents and does not search the
    index otherwise), and a document is recorded as relevant exactly when the
    stripped, lower-cased answer is [relevant], for one document and for
    every document of the evaluation loop. *)
Theorem binary_decisions_default_to_negative (w : World) (query : string) (tr : Trace) :
  (forall s, retrieval_chain w tr query = Ok s ->
     exists b,
       RetrievalAgent.should_retrieve w query tr = (Ok b, tr ++ [RetrievalChain query]) /\
       (b = true <-> Py.lower (Py.strip s) = "yes") /\
       (b = false ->
        RetrievalAgent.run w query tr = (Ok (false, []), tr ++ [RetrievalChain query]))) /\
  (forall doc s sc,
     relevance_chain w tr query (Document.content doc) = Ok s ->
     numerical_relevance_chain w (tr ++ [RelevanceChain query (Document.content doc)])
       query (Document.content doc) = Ok sc ->
     exists b,
       EvaluationAgent.evaluate_document w query doc tr =
         (Ok (RelevanceScore.mk sc b),
          (tr ++ [RelevanceChain query (Document.content doc)])
             ++ [NumericalRelevanceChain query (Document.content doc)]) /\
       (b = true <-> Py.lower (Py.strip s) = "relevant")) /\
  (forall documents rs tr',
     EvaluationAgent.evaluate_relevance w query documents tr = (Ok rs, tr') ->
     Forall2 (judged_as w query) documents rs).
Proof.
  repeat split.
  - intros s Hs. exists (String.eqb (Py.lower (Py.strip s)) "yes").
    assert (Hsr : RetrievalAgent.should_retrieve w query tr =
                  (Ok (String.eqb (Py.lower (Py.strip s)) "yes"), tr ++ [RetrievalChain query])).
    { rewrite should_retrieve_eq. now rewrite Hs. }
    split; [exact Hsr|]. split; [apply String.eqb_eq|].
    intros Hb. rewrite Hb in Hsr. now apply retrieval_run_declined.
  - intros doc s sc Hs Hsc. exists (String.eqb (Py.lower (Py.strip s)) "relevant").
    split; [|apply String.eqb_eq].
    rewrite evaluate_document_eq. now rewrite Hs, Hsc.
  - intros documents rs tr' H.
    apply evaluate_relevance_loop in H as (new & -> & Hnew). exact Hnew.
Qed.

(** ** The no-retrieval path *)

Lemma effective_query_calls (w : World) (query : string) image_bytes (tr : Trace) res tr1 :
  Orchestrator.effective_query w query image_bytes tr = (res, tr1) ->
  exists calls, tr1 = tr ++ calls /\ Forall (fun c => store_or_web_call c = false) calls.
Proof.
  unfold Orchestrator.effective_query, Orchestrator.process_image, invoke, ret.
  destruct image_bytes as [[|b bs]|]; intros H; inversion H; subst.
  - exists []. split; [now rewrite List.app_nil_r | constructor].
  - eexists [_]. split; [reflexivity | now repeat constructor].
  - exists []. split; [now rewrite List.app_nil_r | constructor].
Qed.

Lemma generate_without_context_eq (w : World) (query : string) history (tr : Trace) :
  GenerationAgent.generate_without_context w query history tr =
    (match generation_chain w tr query "No specific context available."
             (GenerationAgent.history_input history) with
     | Ok r => Ok (r, [])
     | Raise e => Raise e
     end,
     tr ++ [GenerationChain query "No specific context available."
              (GenerationAgent.history_input history)]).
Proof.
  unfold GenerationAgent.generate_without_context, GenerationAgent.generate, bind, invoke, ret.
  now destruct (generation_chain w tr query _ _).
Qed.

(** A history in the [strategy] position matches none of the three names. *)
Lemma generation_run_history_strategy (w : World) (query : string) h documents scores
  web_result history :
  GenerationAgent.run w query (GenerationAgent.StrategyHistory h) documents scores
    web_result history
  = GenerationAgent.generate_without_context w query history.
Proof. reflexivity. Qed.

(** C6.  When the retrieval gate declines (after the optional image step),
    [Orchestrator.run] makes exactly one more call, the generation call with
    the no-context text, and returns what that call returns: a [QueryResult]
    with the generated answer, no reference links and no relevant documents
    (or the exception of the generation service).  None of the calls of the
    run reaches the document store or the web search. *)
Theorem no_retrieval_path (self : Orchestrator.t) (w : World) (query : string)
  image_bytes history (tr : Trace) (q : string) (tr1 tr2 : Trace) :
  Orchestrator.effective_query w query image_bytes tr = (Ok q, tr1) ->
  RetrievalAgent.should_retrieve w q tr1 = (Ok false, tr2) ->
  Orchestrator.run self w query image_bytes history tr =
    (match generation_chain w tr2 q "No specific context available." None with
     | Ok r => Ok (QueryResult.mk r [] [])
     | Raise e => Raise e
     end,
     tr2 ++ [GenerationChain q "No specific context available." None]) /\
  exists calls,
    snd (Orchestrator.run self w query image_bytes history tr) = tr ++ calls /\
    Forall (fun c => store_or_web_call c = false) calls.
Proof.
  intros Hq Hgate.
  assert (Hrun : Orchestrator.run self w query image_bytes history tr =
    (match generation_chain w tr2 q "No specific context available." None with
     | Ok r => Ok (QueryResult.mk r [] [])
     | Raise e => Raise e
     end,
     tr2 ++ [GenerationChain q "No specific context available." None])).
  { unfold Orchestrator.run.
    rewrite (bind_ok _ _ _ _ _ Hq).
    rewrite (bind_ok _ _ _ _ _ (retrieval_run_declined _ _ _ _ Hgate)).
    cbn [fst snd negb].
    rewrite generation_run_history_strategy.
    unfold bind. rewrite generate_without_context_eq. simpl GenerationAgent.history_input.
    now destruct (generation_chain w tr2 q _ None). }
  split; [exact Hrun|].
  rewrite Hrun. simpl snd.
  apply effective_query_calls in Hq as (calls & -> & Hcalls).
  rewrite should_retrieve_eq in Hgate. inversion Hgate; subst.
  exists (calls ++ [RetrievalChain q; GenerationChain q "No specific context available." None]).
  split.
  - rewrite <- !List.app_assoc. reflexivity.
  - apply List.Forall_app. split; [exact Hcalls | now repeat constructor].
Qed.

(** ** Failures of the final generation call *)

Lemma generate_ok (w : World) (query context : string) history (tr : Trace) r tr' :
  GenerationAgent.generate w query context history tr = (Ok r, tr') ->
  exists h, tr' = tr ++ [GenerationChain query context h] /\
            generation_chain w tr query context h = Ok r.
Proof.
  unfold GenerationAgent.generate, invoke. intros H. inversion H; subst.
  now exists (GenerationAgent.history_input history).
Qed.

(** A generation that returns has ended with a generation call that the
    service answered. *)
Lemma generation_run_ok (w : World) (query : string) strategy documents scores
  web_result history (tr : Trace) g tr' :
  GenerationAgent.run w query strategy documents scores web_result history tr = (Ok g, tr') ->
  exists c h r, tr' = tr ++ [GenerationChain query c h] /\
                generation_chain w tr query c h = Ok r.
Proof.
  unfold GenerationAgent.run.
  destruct (GenerationAgent.strategy_is strategy "kb_only");
    [|destruct (GenerationAgent.strategy_is strategy "web_only");
      [|destruct (GenerationAgent.strategy_is strategy "hybrid")]].
  - unfold GenerationAgent.generate_from_kb.
    destruct documents as [documents|], scores as [scores|]; try (unfold raise; intros H; discriminate H).
    intros H. apply bind_inv_ok in H as (r & tr1 & Hg & H).
    apply ret_inv in H as [_ <-]. apply generate_ok in Hg as (h & -> & Hr).
    do 3 eexists; split; [reflexivity | exact Hr].
  - unfold GenerationAgent.generate_from_web.
    destruct web_result as [web_result|]; try (unfold raise; intros H; discriminate H).
    intros H. apply bind_inv_ok in H as (r & tr1 & Hg & H).
    apply ret_inv in H as [_ <-]. apply generate_ok in Hg as (h & -> & Hr).
    do 3 eexists; split; [reflexivity | exact Hr].
  - unfold GenerationAgent.generate_hybrid.
    destruct documents as [documents|], scores as [scores|]; try (unfold raise; intros H; discriminate H).
    destruct web_result as [web_result|]; try (unfold raise; intros H; discriminate H).
    intros H. apply bind_inv_ok in H as (r & tr1 & Hg & H).
    apply ret_inv in H as [_ <-]. apply generate_ok in Hg as (h & -> & Hr).
    do 3 eexists; split; [reflexivity | exact Hr].
  - unfold GenerationAgent.generate_without_context.
    intros H. apply bind_inv_ok in H as (r & tr1 & Hg & H).
    apply ret_inv in H as [_ <-]. apply generate_ok in Hg as (h & -> & Hr).
    do 3 eexists; split; [reflexivity | exact Hr].
Qed.

Lemma run_ok_last_call (self : Orchestrator.t) (w : World) (query : string)
  image_bytes history (tr : Trace) result tr' :
  Orchestrator.run self w query image_bytes history tr = (Ok result, tr') ->
  exists t0 q c h r, tr' = t0 ++ [GenerationChain q c h] /\
                     generation_chain w t0 q c h = Ok r.
Proof.
  unfold Orchestrator.run. intros H.
  apply bind_inv_ok in H as (q & tr1 & _ & H).
  apply bind_inv_ok in H as (r & tr2 & _ & H).
  destruct (negb (fst r)).
  - apply bind_inv_ok in H as (g & tr3 & Hg & H).
    apply ret_inv in H as [_ <-].
    apply generation_run_ok in Hg as (c & h & a & -> & Ha).
    do 5 eexists; split; [reflexivity | exact Ha].
  - apply bind_inv_ok in H as (ev & tr3 & _ & H).
    apply bind_inv_ok in H as (wr & tr4 & _ & H).
    apply bind_inv_ok in H as (g & tr5 & Hg & H).
    apply ret_inv in H as [_ <-].
    apply generation_run_ok in Hg as (c & h & a & -> & Ha).
    do 5 eexists; split; [reflexivity | exact Ha].
Qed.

(** C8.  For a non-empty prompt, [generate_response] never raises: whenever
    [Orchestrator.run] raises, the caller receives the text "Sorry, I
    encountered an error while processing your request. Please try again."
    (paired with [None]) and no exception; in particular when the last call
    of the run is a generation call that the service answered with an
    exception. *)
Theorem generate_response_apologises (orchestrator : Orchestrator.t) (w : World)
  (prompt : string) image_bytes history (tr : Trace) :
  Py.truthy prompt = true ->
  (forall e tr',
     Orchestrator.run orchestrator w prompt image_bytes history tr = (Raise e, tr') ->
     Main.generate_response orchestrator w prompt image_bytes history tr
     = (Ok (Main.TextPair
              "Sorry, I encountered an error while processing your request. Please try again."),
        tr')) /\
  (forall t0 q c h e,
     snd (Orchestrator.run orchestrator w prompt image_bytes history tr)
       = t0 ++ [GenerationChain q c h] ->
     generation_chain w t0 q c h = Raise e ->
     Main.generate_response orchestrator w prompt image_bytes history tr
     = (Ok (Main.TextPair
              "Sorry, I encountered an error while processing your request. Please try again."),
        t0 ++ [GenerationChain q c h])) /\
  (exists v tr',
     Main.generate_response orchestrator w prompt image_bytes history tr = (Ok v, tr')).
Proof.
  intros Hprompt.
  assert (Hraise : forall e tr',
     Orchestrator.run orchestrator w prompt image_bytes history tr = (Raise e, tr') ->
     Main.generate_response orchestrator w prompt image_bytes history tr
     = (Ok (Main.TextPair
              "Sorry, I encountered an error while processing your request. Please try again."),
        tr')).
  { intros e tr' H. unfold Main.generate_response. rewrite Hprompt. cbn [negb].
    unfold try_except. cbv beta. now rewrite (bind_raise _ _ _ _ _ H). }
  repeat split.
  - exact Hraise.
  - intros t0 q c h e Htrace Hanswer.
    destruct (Orchestrator.run orchestrator w prompt image_bytes history tr)
      as [[result|e'] tr'] eqn:Hrun; simpl in Htrace; subst tr'.
    + exfalso. apply run_ok_last_call in Hrun as (t0' & q' & c' & h' & r & Heq & Hok).
      apply List.app_inj_tail in Heq as [-> Hcall]. inversion Hcall; subst. congruence.
    + now apply (Hraise e').
  - destruct (Orchestrator.run orchestrator w prompt image_bytes history tr)
      as [[result|e'] tr'] eqn:Hrun.
    + exists (Main.ResultPair result), tr'.
      unfold Main.generate_response. rewrite Hprompt. cbn [negb].
      unfold try_except. cbv beta. rewrite (bind_ok _ _ _ _ _ Hrun). reflexivity.
    + eauto.
Qed.

(** ** Web search *)

Lemma web_search_run_eq (w : World) (query : string) (tr : Trace) (rq raw : string) :
  query_rewrite_chain w tr query = Ok rq ->
  search_tool w (tr ++ [QueryRewriteChain query]) (Py.strip rq) = Ok raw ->
  WebSearchAgent.run w query tr =
    (match knowledge_refinement_chain w
             ((tr ++ [QueryRewriteChain query]) ++ [SearchTool (Py.strip rq)]) raw with
     | Ok text =>
         let? sources := WebSearchAgent.extract_sources w raw in
         Ok (WebSearchResult.mk (Py.join Py.nl (WebSearchAgent.key_points_of text)) sources)
     | Raise e => Raise e
     end,
     ((tr ++ [QueryRewriteChain query]) ++ [SearchTool (Py.strip rq)])
        ++ [KnowledgeRefinementChain raw]).
Proof.
  intros Hrq Hraw.
  unfold WebSearchAgent.run, WebSearchAgent.rewrite_query, WebSearchAgent.extract_knowledge,
    bind, invoke, ret, lift.
  rewrite Hrq, Hraw.
  destruct (knowledge_refinement_chain w _ raw); [|reflexivity].
  now destruct (WebSearchAgent.extract_sources w raw).
Qed.

Lemma extract_sources_not_json (w : World) (raw : string) :
  json_loads w raw = None -> WebSearchAgent.extract_sources w raw = Ok [].
Proof. intros H. unfold WebSearchAgent.extract_sources. now rewrite H. Qed.

(** An exception of the web search in Step 3 leaves [Orchestrator.run]. *)
Lemma run_web_search_raises (self : Orchestrator.t) (w : World) (query : string)
  image_bytes history (tr : Trace) q tr1 documents tr2 rs strategy tr3 e tr4 :
  Orchestrator.effective_query w query image_bytes tr = (Ok q, tr1) ->
  RetrievalAgent.run w q tr1 = (Ok (true, documents), tr2) ->
  EvaluationAgent.run (Orchestrator.evaluation_agent self) w q documents tr2
    = (Ok (rs, strategy), tr3) ->
  Py.str_in strategy ["web_only"; "hybrid"] = true ->
  WebSearchAgent.run w q tr3 = (Raise e, tr4) ->
  Orchestrator.run self w query image_bytes history tr = (Raise e, tr4).
Proof.
  intros Hq Hr Hev Hs Hweb. unfold Orchestrator.run.
  rewrite (bind_ok _ _ _ _ _ Hq), (bind_ok _ _ _ _ _ Hr). cbn [fst snd negb].
  rewrite (bind_ok _ _ _ _ _ Hev). cbn [fst snd]. rewrite Hs.
  apply bind_raise. now apply bind_raise.
Qed.

(** The generation step of a run that searched the web and found no web
    source. *)
Lemma generation_run_no_web_sources (w : World) (query strategy : string)
  (documents : list Document.t) (scores : list Q) (knowledge : string) history (tr : Trace) :
  Py.str_in strategy ["web_only"; "hybrid"] = true ->
  exists context,
    forall r,
      generation_chain w tr query context (GenerationAgent.history_input history) = r ->
      GenerationAgent.run w query (GenerationAgent.StrategyName strategy)
        (if Py.str_in strategy ["kb_only"; "hybrid"] then Some documents else None)
        (if Py.str_in strategy ["kb_only"; "hybrid"] then Some scores else None)
        (Some (WebSearchResult.mk knowledge [])) history tr
      = (match r with
         | Ok answer =>
             Ok (answer,
                 if String.eqb strategy "hybrid"
                 then snd (GenerationAgent._prepare_kb_context w documents scores)
                 else [])
         | Raise e => Raise e
         end,
         tr ++ [GenerationChain query context (GenerationAgent.history_input history)]).
Proof.
  intros Hs. unfold Py.str_in in Hs. simpl in Hs.
  destruct (String.eqb_spec strategy "web_only") as [-> | Hweb_only].
  - eexists. intros r Hr. unfold GenerationAgent.run. simpl.
    unfold GenerationAgent.generate_from_web, GenerationAgent.generate, bind, invoke, ret.
    cbv zeta. rewrite Hr. now destruct r.
  - destruct (String.eqb_spec strategy "hybrid") as [-> | Hhybrid]; [|discriminate Hs].
    eexists. intros r Hr. unfold GenerationAgent.run. simpl.
    unfold GenerationAgent.generate_hybrid, GenerationAgent.generate, bind, invoke, ret.
    cbv zeta. rewrite Hr. destruct r; [|reflexivity].
    simpl WebSearchResult.sources. now rewrite List.app_nil_r.
Qed.

(** C5, as the code has it.  Once the query is rewritten and the search has
    answered with the raw text [raw]: if the refinement chain answers with
    [text] and [raw] is not JSON, [WebSearchAgent.run] returns a result with
    no sources whose knowledge is the key points of [text], one per line, and
    [Orchestrator.run], when this happens in its web search step, goes on to
    the generation call and returns a [QueryResult] with the answer of that
    call and no web link; if the refinement chain raises,
    [WebSearchAgent.run] raises the same exception, and so does
    [Orchestrator.run]. *)
Theorem web_search_best_effort (w : World) (query : string) (tr : Trace) (rq raw : string) :
  query_rewrite_chain w tr query = Ok rq ->
  search_tool w (tr ++ [QueryRewriteChain query]) (Py.strip rq) = Ok raw ->
  (forall text,
     knowledge_refinement_chain w
       ((tr ++ [QueryRewriteChain query]) ++ [SearchTool (Py.strip rq)]) raw = Ok text ->
     json_loads w raw = None ->
     WebSearchAgent.run w query tr =
       (Ok (WebSearchResult.mk (Py.join Py.nl (WebSearchAgent.key_points_of text)) []),
        ((tr ++ [QueryRewriteChain query]) ++ [SearchTool (Py.strip rq)])
           ++ [KnowledgeRefinementChain raw]) /\
     (forall self user_query image_bytes history tr0 tr1 documents tr2 rs strategy,
        Orchestrator.effective_query w user_query image_bytes tr0 = (Ok query, tr1) ->
        RetrievalAgent.run w query tr1 = (Ok (true, documents), tr2) ->
        EvaluationAgent.run (Orchestrator.evaluation_agent self) w query documents tr2
          = (Ok (rs, strategy), tr) ->
        Py.str_in strategy ["web_only"; "hybrid"] = true ->
        exists context,
          snd (Orchestrator.run self w user_query image_bytes history tr0)
          = (((tr ++ [QueryRewriteChain query]) ++ [SearchTool (Py.strip rq)])
               ++ [KnowledgeRefinementChain raw])
              ++ [GenerationChain query context (GenerationAgent.history_input history)] /\
          forall answer,
            generation_chain w
              (((tr ++ [QueryRewriteChain query]) ++ [SearchTool (Py.strip rq)])
                 ++ [KnowledgeRefinementChain raw])
              query context (GenerationAgent.history_input history) = Ok answer ->
            fst (Orchestrator.run self w user_query image_bytes history tr0)
            = Ok (QueryResult.mk answer
                    (if String.eqb strategy "hybrid"
                     then snd (GenerationAgent._prepare_kb_context w documents
                                 (List.map RelevanceScore.score rs))
                     else [])
                    (Orchestrator.relevant_docs_of self documents
                       (List.map RelevanceScore.score rs))))) /\
  (forall e,
     knowledge_refinement_chain w
       ((tr ++ [QueryRewriteChain query]) ++ [SearchTool (Py.strip rq)]) raw = Raise e ->
     WebSearchAgent.run w query tr =
       (Raise e,
        ((tr ++ [QueryRewriteChain query]) ++ [SearchTool (Py.strip rq)])
           ++ [KnowledgeRefinementChain raw]) /\
     (forall self user_query image_bytes history tr0 tr1 documents tr2 rs strategy,
        Orchestrator.effective_query w user_query image_bytes tr0 = (Ok query, tr1) ->
        RetrievalAgent.run w query tr1 = (Ok (true, documents), tr2) ->
        EvaluationAgent.run (Orchestrator.evaluation_agent self) w query documents tr2
          = (Ok (rs, strategy), tr) ->
        Py.str_in strategy ["web_only"; "hybrid"] = true ->
        fst (Orchestrator.run self w user_query image_bytes history tr0) = Raise e)).
Proof.
  intros Hrq Hraw. split.
  - intros text Htext Hjson.
    assert (Hweb : WebSearchAgent.run w query tr =
       (Ok (WebSearchResult.mk (Py.join Py.nl (WebSearchAgent.key_points_of text)) []),
        ((tr ++ [QueryRewriteChain query]) ++ [SearchTool (Py.strip rq)])
           ++ [KnowledgeRefinementChain raw])).
    { rewrite (web_search_run_eq w query tr rq raw Hrq Hraw), Htext.
      now rewrite (extract_sources_not_json w raw Hjson). }
    split; [exact Hweb|].
    intros self user_query image_bytes history tr0 tr1 documents tr2 rs strategy Hq Hr Hev Hs.
    destruct (generation_run_no_web_sources w query strategy documents
                (List.map RelevanceScore.score rs)
                (Py.join Py.nl (WebSearchAgent.key_points_of text)) history
                (((tr ++ [QueryRewriteChain query]) ++ [SearchTool (Py.strip rq)])
                   ++ [KnowledgeRefinementChain raw]) Hs) as [context Hgen].
    exists context.
    assert (Hrun : forall r,
              generation_chain w
                (((tr ++ [QueryRewriteChain query]) ++ [SearchTool (Py.strip rq)])
                   ++ [KnowledgeRefinementChain raw])
                query context (GenerationAgent.history_input history) = r ->
              Orchestrator.run self w user_query image_bytes history tr0
              = (match r with
                 | Ok answer =>
                     Ok (QueryResult.mk answer
                           (if String.eqb strategy "hybrid"
                            then snd (GenerationAgent._prepare_kb_context w documents
                                        (List.map RelevanceScore.score rs))
                            else [])
                           (Orchestrator.relevant_docs_of self documents
                              (List.map RelevanceScore.score rs)))
                 | Raise e => Raise e
                 end,
                 (((tr ++ [QueryRewriteChain query]) ++ [SearchTool (Py.strip rq)])
                    ++ [KnowledgeRefinementChain raw])
                   ++ [GenerationChain query context
                         (GenerationAgent.history_input history)])).
    { intros r Hr'. unfold Orchestrator.run.
      rewrite (bind_ok _ _ _ _ _ Hq), (bind_ok _ _ _ _ _ Hr). cbn [fst snd negb].
      rewrite (bind_ok _ _ _ _ _ Hev). cbn [fst snd]. rewrite Hs.
      rewrite (bind_ok _ _ _ (Some (WebSearchResult.mk
                 (Py.join Py.nl (WebSearchAgent.key_points_of text)) []))
                 (((tr ++ [QueryRewriteChain query]) ++ [SearchTool (Py.strip rq)])
                    ++ [KnowledgeRefinementChain raw])).
      2:{ now rewrite (bind_ok _ _ _ _ _ Hweb). }
      cbv beta. destruct r as [answer|e].
      - rewrite (bind_ok _ _ _ _ _ (Hgen _ Hr')). reflexivity.
      - now rewrite (bind_raise _ _ _ _ _ (Hgen _ Hr')). }
    split.
    + rewrite (Hrun _ eq_refl). reflexivity.
    + intros answer Hanswer. now rewrite (Hrun _ Hanswer).
  - intros e He.
    assert (Hweb : WebSearchAgent.run w query tr =
       (Raise e, ((tr ++ [QueryRewriteChain query]) ++ [SearchTool (Py.strip rq)])
                   ++ [KnowledgeRefinementChain raw])).
    { now rewrite (web_search_run_eq w query tr rq raw Hrq Hraw), He. }
    split; [exact Hweb|].
    intros self user_query image_bytes history tr0 tr1 documents tr2 rs strategy Hq Hr Hev Hs.
    now rewrite (run_web_search_raises _ _ _ _ _ _ _ _ _ _ _ _ _ _ _ Hq Hr Hev Hs Hweb).
Qed.

(** ** Candidates of the knowledge-base-only path *)





Lemma evaluation_run_ok (self : EvaluationAgent.t) (w : World) (query : string)
  (documents : list Document.t) (tr : Trace) rs strategy tr' :
  EvaluationAgent.run self w query documents tr = (Ok (rs, strategy), tr') ->
  Forall2 (judged_as w query) documents rs /\
  strategy = EvaluationAgent.determine_retrieval_strategy self rs.
Proof.
  unfold EvaluationAgent.run. intros H.
  apply bind_inv_ok in H as (rs' & tr1 & Hloop & H).
  apply ret_inv in H as [H _]. inversion H; subst.
  apply evaluate_relevance_loop in Hloop as (new & -> & Hnew). now split.
Qed.

(** With the strategy [kb_only], Step 4 generates from all the retrieved
    documents and their scores. *)
Lemma run_kb_only (self : Orchestrator.t) (w : World) (user_query : string)
  image_bytes history (tr : Trace) query tr1 documents tr2 rs tr3 :
  Orchestrator.effective_query w user_query image_bytes tr = (Ok query, tr1) ->
  RetrievalAgent.run w query tr1 = (Ok (true, documents), tr2) ->
  EvaluationAgent.run (Orchestrator.evaluation_agent self) w query documents tr2
    = (Ok (rs, "kb_only"), tr3) ->
  Orchestrator.run self w user_query image_bytes history tr =
    (let* g := GenerationAgent.generate_from_kb w query (Some documents)
                 (Some (List.map RelevanceScore.score rs)) history in
     ret (QueryResult.mk (fst g) (snd g)
            (Orchestrator.relevant_docs_of self documents
               (List.map RelevanceScore.score rs)))) tr3.
Proof.
  intros Hq Hr Hev. unfold Orchestrator.run.
  rewrite (bind_ok _ _ _ _ _ Hq), (bind_ok _ _ _ _ _ Hr). cbn [fst snd negb].
  rewrite (bind_ok _ _ _ _ _ Hev). cbn [fst snd].
  reflexivity.
Qed.



(** ** Runs of the example worlds *)

Lemma is_max_singleton (x : Q) : is_max x [x].
Proof.
  split.
  - exists x. split; [now left | reflexivity].
  - intros y [<-|[]]. apply Qle_refl.
Qed.

(** Both passages score at least the upper threshold and only [A] is judged
    relevant: the strategy is [kb_only] and the generation call receives both
    passages. *)
Example kb_world_run :
  Orchestrator.run default_orchestrator kb_world "q" None None [] =
    (Ok (QueryResult.mk "answer" []
           [RelevantDocument.mk "A" (9 # 10) "https://example.org/a";
            RelevantDocument.mk "B" (8 # 10) "No URL available"]),
     [RetrievalChain "q"; SimilaritySearch "q" 3;
      RelevanceChain "q" "A"; NumericalRelevanceChain "q" "A";
      RelevanceChain "q" "B"; NumericalRelevanceChain "q" "B";
      GenerationChain "q"
        ("Document (relevance: 0.90):" +:+ Py.nl +:+ "A" +:+ Py.nl +:+ Py.nl
         +:+ "Document (relevance: 0.80):" +:+ Py.nl +:+ "B")
        None]).
Proof. vm_compute. reflexivity. Qed.

Example kb_world_evaluation :
  EvaluationAgent.run default_thresholds kb_world "q"
    [Document.mk "A" {[ "url" := "https://example.org/a" ]}; Document.mk "B" ∅]
    [RetrievalChain "q"; SimilaritySearch "q" 3] =
    (Ok ([RelevanceScore.mk (9 # 10) true; RelevanceScore.mk (8 # 10) false], "kb_only"),
     [RetrievalChain "q"; SimilaritySearch "q" 3;
      RelevanceChain "q" "A"; NumericalRelevanceChain "q" "A";
      RelevanceChain "q" "B"; NumericalRelevanceChain "q" "B"]).
Proof. vm_compute. reflexivity. Qed.

(** One passage of score 0.9 judged irrelevant: [CombinedRAG.run] searches
    the web and generates from the web results. *)
Example irrelevant_world_combined_run :
  CombinedRAG.run default_rag irrelevant_world "q" [] =
    (Ok (RagResult.mk "answer" []
           [RelevantDocument.mk "A" (9 # 10) "No URL available"]),
     [RetrievalChain "q"; SimilaritySearch "q" 3;
      NumericalRelevanceChain "q" "A"; RelevanceChain "q" "A";
      QueryRewriteChain "q"; SearchTool "q"; KnowledgeRefinementChain raw_results;
      GenerationChain "q"
        ("Web search results:" +:+ Py.nl +:+ "- key point" +:+ Py.nl +:+ Py.nl
         +:+ "Sources:" +:+ Py.nl)
        None]).
Proof. vm_compute. reflexivity. Qed.

Example web_world_search :
  WebSearchAgent.run web_world "q" [] =
    (Ok (WebSearchResult.mk "- key point" []),
     [QueryRewriteChain "q"; SearchTool "q"; KnowledgeRefinementChain raw_results]).
Proof. vm_compute. reflexivity. Qed.

Example refinement_fails_search :
  WebSearchAgent.run refinement_fails_world "q" [] =
    (Raise (ServiceCallFailed "refinement"),
     [QueryRewriteChain "q"; SearchTool "q"; KnowledgeRefinementChain raw_results]).
Proof. vm_compute. reflexivity. Qed.

Example refinement_fails_run :
  Orchestrator.run default_orchestrator refinement_fails_world "q" None None [] =
    (Raise (ServiceCallFailed "refinement"),
     [RetrievalChain "q"; SimilaritySearch "q" 3;
      RelevanceChain "q" "A"; NumericalRelevanceChain "q" "A";
      RelevanceChain "q" "B"; NumericalRelevanceChain "q" "B";
      QueryRewriteChain "q"; SearchTool "q"; KnowledgeRefinementChain raw_results]).
Proof. vm_compute. reflexivity. Qed.

Example strip_lower_example :
  Py.lower (Py.strip (String "009" " Yes " +:+ Py.nl)) = "yes" /\
  Py.lower (Py.strip "Yes.") = "yes.".
Proof. split; reflexivity. Qed.

Example split_lines_example :
  Py.split_lines ("a" +:+ Py.nl +:+ Py.nl +:+ "b" +:+ Py.nl) = ["a"; ""; "b"; ""] /\
  WebSearchAgent.key_points_of ("- a " +:+ Py.nl +:+ "  " +:+ Py.nl +:+ "- b") = ["- a"; "- b"].
Proof. split; reflexivity. Qed.

(** ** Instances of the theorems *)

(** The examples of the specification for the thresholds 0.3 and 0.7. *)
Lemma strategy_bands_witness :
  EvaluationAgent.determine_retrieval_strategy default_thresholds [] = "web_only" /\
  EvaluationAgent.determine_retrieval_strategy default_thresholds
    [RelevanceScore.mk (2 # 10) false] = "web_only" /\
  EvaluationAgent.determine_retrieval_strategy default_thresholds
    [RelevanceScore.mk (5 # 10) false] = "hybrid" /\
  EvaluationAgent.determine_retrieval_strategy default_thresholds
    [RelevanceScore.mk (9 # 10) false] = "kb_only".
Proof.
  assert (H : EvaluationAgent.lower_threshold default_thresholds
              < EvaluationAgent.upper_threshold default_thresholds) by reflexivity.
  split; [|split; [|split]].
  - exact (proj1 (strategy_bands default_thresholds [] H) eq_refl).
  - apply (proj2 (proj2 (strategy_bands default_thresholds
                          [RelevanceScore.mk (2 # 10) false] H))
             (2 # 10) (is_max_singleton _)).
    reflexivity.
  - apply (proj2 (proj2 (strategy_bands default_thresholds
                          [RelevanceScore.mk (5 # 10) false] H))
             (5 # 10) (is_max_singleton _)).
    split; [discriminate | reflexivity].
  - apply (proj2 (proj2 (strategy_bands default_thresholds
                          [RelevanceScore.mk (9 # 10) false] H))
             (9 # 10) (is_max_singleton _)).
    discriminate.
Defined.

Lemma relevant_docs_sorted_witness :
  StronglySorted score_desc
    [RelevantDocument.mk "A" (9 # 10) "https://example.org/a";
     RelevantDocument.mk "B" (8 # 10) "No URL available"] /\
  Forall (fun d => 3 # 10 <= RelevantDocument.score d)
    [RelevantDocument.mk "A" (9 # 10) "https://example.org/a";
     RelevantDocument.mk "B" (8 # 10) "No URL available"].
Proof.
  exact (relevant_docs_sorted_above_threshold default_orchestrator kb_world "q" None None []
           _ _ kb_world_run).
Defined.

Lemma web_search_best_effort_witness :
  WebSearchAgent.run web_world "q" [] =
    (Ok (WebSearchResult.mk "- key point" []),
     [QueryRewriteChain "q"; SearchTool "q"; KnowledgeRefinementChain raw_results]) /\
  fst (Orchestrator.run default_orchestrator web_world "q" None None [])
  = Ok (QueryResult.mk "answer" [] []) /\
  WebSearchAgent.run refinement_fails_world "q" [] =
    (Raise (ServiceCallFailed "refinement"),
     [QueryRewriteChain "q"; SearchTool "q"; KnowledgeRefinementChain raw_results]).
Proof.
  split; [|split].
  - exact (proj1 (proj1 (web_search_best_effort web_world "q" [] "q" raw_results
                           eq_refl eq_refl)
                    "- key point" eq_refl eq_refl)).
  - destruct (proj2 (proj1 (web_search_best_effort web_world "q"
                              [RetrievalChain "q"; SimilaritySearch "q" 3;
                               RelevanceChain "q" "A"; NumericalRelevanceChain "q" "A";
                               RelevanceChain "q" "B"; NumericalRelevanceChain "q" "B"]
                              "q" raw_results eq_refl eq_refl)
                       "- key point" eq_refl eq_refl)
                default_orchestrator "q" None None [] []
                [Document.mk "A" {[ "url" := "https://example.org/a" ]}; Document.mk "B" ∅]
                [RetrievalChain "q"; SimilaritySearch "q" 3]
                [RelevanceScore.mk (1 # 10) true; RelevanceScore.mk (1 # 10) false]
                "web_only" eq_refl eq_refl eq_refl eq_refl)
      as (context & _ & Hanswer).
    exact (Hanswer "answer" eq_refl).
  - exact (proj1 (proj2 (web_search_best_effort refinement_fails_world "q" [] "q" raw_results
                           eq_refl eq_refl)
                    (ServiceCallFailed "refinement") eq_refl)).
Defined.

Lemma no_retrieval_path_witness :
  Orchestrator.run default_orchestrator no_retrieval_world "What is a for loop?" None
    (Some [("user", "hello")]) [] =
    (Ok (QueryResult.mk "answer" [] []),
     [RetrievalChain "What is a for loop?";
      GenerationChain "What is a for loop?" "No specific context available." None]) /\
  exists calls,
    snd (Orchestrator.run default_orchestrator no_retrieval_world "What is a for loop?" None
           (Some [("user", "hello")]) []) = [] ++ calls /\
    Forall (fun c => store_or_web_call c = false) calls.
Proof.
  exact (no_retrieval_path default_orchestrator no_retrieval_world "What is a for loop?" None
           (Some [("user", "hello")]) [] "What is a for loop?" []
           [RetrievalChain "What is a for loop?"] eq_refl eq_refl).
Defined.

Lemma generate_response_apologises_witness :
  Main.generate_response default_orchestrator generation_fails_world "What is a for loop?"
    None None [] =
    (Ok (Main.TextPair
           "Sorry, I encountered an error while processing your request. Please try again."),
     [RetrievalChain "What is a for loop?";
      GenerationChain "What is a for loop?" "No specific context available." None]).
Proof.
  exact (proj1 (proj2 (generate_response_apologises default_orchestrator
                         generation_fails_world "What is a for loop?" None None [] eq_refl))
           [RetrievalChain "What is a for loop?"] "What is a for loop?"
           "No specific context available." None (ServiceCallFailed "generation")
           eq_refl eq_refl).
Defined.

(** An answer with a trailing full stop is not [yes]: no retrieval. *)
Lemma binary_decisions_witness :
  RetrievalAgent.run punctuated_world "q" [] = (Ok (false, []), [RetrievalChain "q"]).
Proof.
  destruct (proj1 (binary_decisions_default_to_negative punctuated_world "q" []) "Yes." eq_refl)
    as (b & _ & Hb & Hrun).
  apply Hrun. destruct b; [|reflexivity].
  exfalso. pose proof (proj1 Hb eq_refl) as Habs. vm_compute in Habs. discriminate Habs.
Defined.

(** ** Inputs on which the specification and the code differ *)


(** C5 as stated fails.  When the refinement chain raises, no
    [WebSearchResult] is built: [WebSearchAgent.run] raises and so does
    [Orchestrator.run].  When the raw results are not JSON, the sources are
    empty but the knowledge is the refined text, not the empty string. *)
Lemma web_search_degradation_counterexample :
  (knowledge_refinement_chain refinement_fails_world
     [QueryRewriteChain "q"; SearchTool "q"] raw_results
   = Raise (ServiceCallFailed "refinement") /\
   fst (WebSearchAgent.run refinement_fails_world "q" [])
   = Raise (ServiceCallFailed "refinement") /\
   fst (Orchestrator.run default_orchestrator refinement_fails_world "q" None None [])
   = Raise (ServiceCallFailed "refinement")) /\
  (json_loads web_world raw_results = None /\
   fst (WebSearchAgent.run web_world "q" [])
   = Ok (WebSearchResult.mk "- key point" [])).
Proof. vm_compute. repeat split; reflexivity. Qed.

(** * Further properties of the code *)

(** ** Previews of any length *)


(** ** Sources of a web search *)

Lemma truthy_nonempty (s : string) : Py.truthy s = true <-> s <> "".
Proof. destruct s; simpl; split; congruence. Qed.

Lemma dict_get_truthy (d : gmap string string) (key : string) :
  Py.truthy (Py.dict_get d key "") = true ->
  d !! key = Some (Py.dict_get d key "") /\ Py.dict_get d key "" <> "".
Proof.
  unfold Py.dict_get. destruct (d !! key) as [v|]; simpl; [|discriminate].
  intros H. split; [reflexivity | now apply truthy_nonempty].
Qed.

Lemma fold_result_app {A S} (xs ys : list A) (body : S -> A -> Result S) (acc : S) :
  fold_result (xs ++ ys) body acc
  = let? acc' := fold_result xs body acc in fold_result ys body acc'.
Proof.
  revert acc. induction xs as [|x xs IH]; intros acc; simpl; [reflexivity|].
  destruct (body acc x) as [acc'|e]; simpl; [apply IH | reflexivity].
Qed.

Lemma add_source_usable (sources : list ReferenceLink.t) (item : Json.t) :
  usable_result item ->
  WebSearchAgent.add_source sources item
  = Ok (sources ++ (if has_link item then [link_of item] else [])).
Proof.
  intros (fields & -> & Hshape).
  unfold WebSearchAgent.add_source, has_link, link_of, text_field. simpl.
  destruct (Json.lookup "link" fields) as [link|] eqn:Hlink; simpl in *.
  - destruct (Json.truthy link) eqn:Htruthy.
    + destruct (Hshape eq_refl) as [[url Hurl] Htitle]. injection Hurl as ->.
      change (Json.truthy (Json.Str url)) with (Py.truthy url) in Htruthy.
      change (default "" (Some url)) with url. rewrite Htruthy.
      destruct Htitle as [-> | [title ->]]; reflexivity.
    + destruct link as [| b | n | x | u | items | fs];
        try (simpl; now rewrite List.app_nil_r).
      change (Json.truthy (Json.Str u)) with (Py.truthy u) in Htruthy.
      change (default "" (Some u)) with u. rewrite Htruthy.
      now rewrite List.app_nil_r.
  - now rewrite List.app_nil_r.
Qed.

Lemma add_source_unusable (sources : list ReferenceLink.t) (item : Json.t) :
  ~ usable_result item ->
  WebSearchAgent.add_source sources item
  = Raise (if is_object item then ValidationError else AttributeError).
Proof.
  intros Hno. destruct item as [| b | n | x | s | items | fields]; try reflexivity.
  unfold WebSearchAgent.add_source. simpl.
  destruct (Json.truthy (default (Json.Str "") (Json.lookup "link" fields))) eqn:Htruthy.
  2:{ exfalso. apply Hno. exists fields. split; [reflexivity|].
      rewrite Htruthy. discriminate. }
  destruct (Json.lookup "link" fields) as [link|] eqn:Hlink; simpl in Htruthy;
    [|discriminate Htruthy].
  simpl.
  destruct (Json.lookup "title" fields) as [title|] eqn:Htitle; simpl.
  - destruct title as [| b | n | x | t | items | fs]; try reflexivity.
    destruct link as [| b | n | x | u | items | fs]; try reflexivity.
    exfalso. apply Hno. exists fields. split; [reflexivity|].
    rewrite Hlink, Htitle. intros _. split; [now exists u | right; now exists t].
  - destruct link as [| b | n | x | u | items | fs]; try reflexivity.
    exfalso. apply Hno. exists fields. split; [reflexivity|].
    rewrite Hlink, Htitle. intros _. split; [now exists u | now left].
Qed.

Lemma fold_add_source_usable (items : list Json.t) :
  Forall usable_result items ->
  forall sources,
    fold_result items WebSearchAgent.add_source sources
    = Ok (sources ++ List.map link_of (List.filter has_link items)).
Proof.
  induction 1 as [|item items Hitem _ IH]; intros sources; simpl.
  - now rewrite List.app_nil_r.
  - rewrite (add_source_usable sources item Hitem). simpl. rewrite IH.
    destruct (has_link item); simpl.
    + now rewrite <- List.app_assoc.
    + now rewrite List.app_nil_r.
Qed.

Lemma add_source_urls (sources sources' : list ReferenceLink.t) (item : Json.t) :
  WebSearchAgent.add_source sources item = Ok sources' ->
  Forall (fun l => ReferenceLink.url l <> "") sources ->
  Forall (fun l => ReferenceLink.url l <> "") sources'.
Proof.
  unfold WebSearchAgent.add_source. intros H Hsources.
  destruct (Json.get item "title" (Json.Str "Untitled")) as [title|e]; [|discriminate H].
  destruct (Json.get item "link" (Json.Str "")) as [link|e]; [|discriminate H].
  simpl in H. destruct (Json.truthy link) eqn:Htruthy.
  - destruct title as [| b | n | x | t | items | fs]; try discriminate H.
    destruct link as [| b | n | x | u | items | fs]; try discriminate H.
    simpl in H. injection H as <-.
    apply List.Forall_app. split; [exact Hsources|].
    constructor; [|constructor]. simpl. now apply truthy_nonempty.
  - injection H as <-. exact Hsources.
Qed.

Lemma extract_sources_sound (w : World) (raw : string) links :
  WebSearchAgent.extract_sources w raw = Ok links ->
  Forall (fun l => ReferenceLink.url l <> "") links.
Proof.
  unfold WebSearchAgent.extract_sources.
  destruct (json_loads w raw) as [v|]; [|intros [= <-]; constructor].
  destruct (Json.iter v) as [items|e]; [|discriminate]. simpl.
  assert (Hfold : forall sources,
            Forall (fun l => ReferenceLink.url l <> "") sources ->
            fold_result items WebSearchAgent.add_source sources = Ok links ->
            Forall (fun l => ReferenceLink.url l <> "") links).
  { induction items as [|item items IH]; intros sources Hsources H; simpl in H.
    - now injection H as <-.
    - destruct (WebSearchAgent.add_source sources item) as [sources'|e] eqn:Hitem;
        [|discriminate H].
      simpl in H. eapply IH; [|exact H].
      eapply add_source_urls; eassumption. }
  intros H. eapply Hfold; [|exact H]. constructor.
Qed.

(** X2.  [extract_sources] on the raw search output.  Text that is not JSON
    gives no source.  A parsed list of usable results (objects whose [link],
    when true, is a string with a string [title] or none) gives, in the order
    of the results, one link for each result with a non-empty [link],
    carrying that link and the [title], or [Untitled]; every returned url is
    non-empty.  Everything else raises, and no link is returned: the first
    item that is not usable raises [AttributeError] when it is not an object
    and a validation error when it is; a parsed number, truth value or
    [null] raises [TypeError]; a parsed string or object is read item by
    item as its characters or keys, so it gives no source when empty and
    raises [AttributeError] otherwise. *)
Theorem extract_sources_links (w : World) (raw : string) :
  (json_loads w raw = None -> WebSearchAgent.extract_sources w raw = Ok []) /\
  (forall links,
     WebSearchAgent.extract_sources w raw = Ok links ->
     Forall (fun l => ReferenceLink.url l <> "") links) /\
  (forall items,
     json_loads w raw = Some (Json.Array items) ->
     (Forall usable_result items ->
      WebSearchAgent.extract_sources w raw
      = Ok (List.map link_of (List.filter has_link items)) /\
      (forall item url,
         In item items -> text_field "link" item = Some url -> url <> "" ->
         In (ReferenceLink.mk (default "Untitled" (text_field "title" item)) url)
            (List.map link_of (List.filter has_link items)))) /\
     (forall before item after,
        items = before ++ item :: after ->
        Forall usable_result before -> ~ usable_result item ->
        WebSearchAgent.extract_sources w raw
        = Raise (if is_object item then ValidationError else AttributeError))) /\
  (forall v,
     json_loads w raw = Some v ->
     match v with
     | Json.Null | Json.Boolean _ | Json.Int _ | Json.Float _ =>
         WebSearchAgent.extract_sources w raw = Raise TypeError
     | Json.Str "" | Json.Object [] =>
         WebSearchAgent.extract_sources w raw = Ok []
     | Json.Str _ | Json.Object _ =>
         WebSearchAgent.extract_sources w raw = Raise AttributeError
     | Json.Array _ => True
     end).
Proof.
  split; [apply extract_sources_not_json|].
  split; [intros links; apply extract_sources_sound|].
  split.
  - intros items Hjson. split.
    + intros Husable. split.
      * unfold WebSearchAgent.extract_sources. rewrite Hjson. simpl.
        now rewrite (fold_add_source_usable items Husable []).
      * intros item url Hitem Hlink Hne.
        apply List.in_map_iff. exists item. split.
        -- unfold link_of. now rewrite Hlink.
        -- apply List.filter_In. split; [exact Hitem|].
           unfold has_link. rewrite Hlink. simpl. now apply truthy_nonempty.
    + intros before item after -> Hbefore Hitem.
      unfold WebSearchAgent.extract_sources. rewrite Hjson. simpl.
      rewrite fold_result_app, (fold_add_source_usable before Hbefore []). simpl.
      now rewrite (add_source_unusable _ item Hitem).
  - intros v Hjson. unfold WebSearchAgent.extract_sources. rewrite Hjson.
    destruct v as [| b | n | x | [|c s] | items | [|[k v] fields]];
      first [exact I | reflexivity].
Qed.

(** ** Key points *)















(** ** Sources of the knowledge-base context and reference links *)

Lemma zip_in {A B} (xs : list A) (ys : list B) (x : A) (y : B) :
  In (x, y) (Py.zip xs ys) -> In x xs /\ In y ys.
Proof.
  revert ys. induction xs as [|a xs IH]; intros [|b ys]; simpl; try tauto.
  intros [H|H]; [injection H as -> ->; tauto | apply IH in H; tauto].
Qed.

Lemma zip_length {A B} (xs : list A) (ys : list B) :
  List.length (Py.zip xs ys) = Nat.min (List.length xs) (List.length ys).
Proof.
  revert ys. induction xs as [|a xs IH]; intros [|b ys]; simpl; try reflexivity.
  now rewrite IH.
Qed.

Lemma kb_sources_sound (w : World) (documents : list Document.t) (scores : list Q) :
  Forall (fun l => ReferenceLink.url l <> "" /\
            exists doc s, In doc documents /\ In s scores /\
                          Document.metadata doc !! "source_url" = Some (ReferenceLink.url l) /\
                          ReferenceLink.title l = "Document (score: " +:+ format_2f w s +:+ ")")
         (snd (GenerationAgent._prepare_kb_context w documents scores)).
Proof.
  unfold GenerationAgent._prepare_kb_context. simpl snd.
  apply List.Forall_forall. intros l Hl.
  apply List.in_flat_map in Hl as ([doc s] & Hpair & Hl).
  simpl in Hl.
  destruct (Py.truthy (Py.dict_get (Document.metadata doc) "source_url" "")) eqn:E;
    [|destruct Hl].
  destruct Hl as [<-|[]]. simpl.
  destruct (dict_get_truthy _ "source_url" E) as [Hurl Hne].
  split; [exact Hne|]. exists doc, s.
  eapply Permutation_in in Hpair; [|symmetry; apply permutation_sorted_desc].
  apply zip_in in Hpair as [Hd Hs]. repeat split; assumption.
Qed.

(** X4.  The sources of the knowledge-base context: every link has a
    non-empty url, which is the [source_url] entry of the metadata of one of
    the documents, and is titled with the formatted score of a document;
    documents without that entry, or with an empty one, contribute no link,
    so there are at most as many links as documents that have a score. *)
Theorem kb_context_sources (w : World) (documents : list Document.t) (scores : list Q) :
  Forall (fun l => ReferenceLink.url l <> "" /\
            exists doc s, In doc documents /\ In s scores /\
                          Document.metadata doc !! "source_url" = Some (ReferenceLink.url l) /\
                          ReferenceLink.title l = "Document (score: " +:+ format_2f w s +:+ ")")
         (snd (GenerationAgent._prepare_kb_context w documents scores)) /\
  (List.length (snd (GenerationAgent._prepare_kb_context w documents scores))
   <= Nat.min (List.length documents) (List.length scores))%nat /\
  ((forall doc, In doc documents -> Document.metadata doc !! "source_url" = None) ->
   snd (GenerationAgent._prepare_kb_context w documents scores) = []).
Proof.
  pose proof (kb_sources_sound w documents scores) as Hsound.
  split; [exact Hsound|]. split.
  - rewrite <- zip_length.
    rewrite (Permutation_length (permutation_sorted_desc snd (Py.zip documents scores))).
    unfold GenerationAgent._prepare_kb_context. simpl snd.
    generalize (Py.sorted_desc snd (Py.zip documents scores)). intros pairs.
    induction pairs as [|pair rest IH]; simpl; [lia|].
    rewrite List.length_app.
    destruct (Py.truthy (Py.dict_get (Document.metadata (fst pair)) "source_url" ""));
      simpl; lia.
  - intros Hnone.
    destruct (snd (GenerationAgent._prepare_kb_context w documents scores)) as [|l rest];
      [reflexivity|].
    inversion Hsound as [|? ? (_ & doc & s & Hdoc & _ & Hurl & _) _]; subst.
    rewrite (Hnone doc Hdoc) in Hurl. discriminate.
Qed.

Lemma web_search_run_ok (w : World) (query : string) (tr : Trace) r tr' :
  WebSearchAgent.run w query tr = (Ok r, tr') ->
  exists raw text,
    WebSearchAgent.extract_sources w raw = Ok (WebSearchResult.sources r) /\
    WebSearchResult.knowledge r = Py.join Py.nl (WebSearchAgent.key_points_of text).
Proof.
  unfold WebSearchAgent.run, WebSearchAgent.extract_knowledge. intros H.
  apply bind_inv_ok in H as (rq & tr1 & _ & H).
  apply bind_inv_ok in H as (raw & tr2 & _ & H).
  apply bind_inv_ok in H as (kps & tr3 & Hk & H).
  apply bind_inv_ok in Hk as (text & tr4 & _ & Hk).
  apply ret_inv in Hk as [<- _].
  apply bind_inv_ok in H as (sources & tr5 & Hsources & H).
  apply ret_inv in H as [<- _].
  unfold lift in Hsources. injection Hsources as Hsources _.
  now exists raw, text.
Qed.

Lemma generation_run_links (w : World) (query : string) strategy documents scores
  web_result history (tr : Trace) g tr' :
  GenerationAgent.run w query strategy documents scores web_result history tr = (Ok g, tr') ->
  (forall web, web_result = Some web ->
     Forall (fun l => ReferenceLink.url l <> "") (WebSearchResult.sources web)) ->
  Forall (fun l => ReferenceLink.url l <> "") (snd g).
Proof.
  assert (Hkb : forall d s,
            Forall (fun l => ReferenceLink.url l <> "")
                   (snd (GenerationAgent._prepare_kb_context w d s))).
  { intros d s. eapply List.Forall_impl; [|apply kb_sources_sound]. simpl. tauto. }
  unfold GenerationAgent.run.
  destruct (GenerationAgent.strategy_is strategy "kb_only");
    [|destruct (GenerationAgent.strategy_is strategy "web_only");
      [|destruct (GenerationAgent.strategy_is strategy "hybrid")]].
  - unfold GenerationAgent.generate_from_kb.
    destruct documents as [d|], scores as [s|];
      try (unfold raise; intros H; discriminate H).
    intros H _. apply bind_inv_ok in H as (r & tr1 & _ & H).
    apply ret_inv in H as [<- _]. apply Hkb.
  - unfold GenerationAgent.generate_from_web.
    destruct web_result as [web|]; try (unfold raise; intros H; discriminate H).
    intros H Hweb. apply bind_inv_ok in H as (r & tr1 & _ & H).
    apply ret_inv in H as [<- _]. now apply Hweb.
  - unfold GenerationAgent.generate_hybrid.
    destruct documents as [d|], scores as [s|];
      try (unfold raise; intros H; discriminate H).
    destruct web_result as [web|]; try (unfold raise; intros H; discriminate H).
    intros H Hweb. apply bind_inv_ok in H as (r & tr1 & _ & H).
    apply ret_inv in H as [<- _]. simpl.
    apply List.Forall_app. split; [apply Hkb | now apply Hweb].
  - unfold GenerationAgent.generate_without_context.
    intros H _. apply bind_inv_ok in H as (r & tr1 & _ & H).
    apply ret_inv in H as [<- _]. constructor.
Qed.

(** X5.  Every reference link of a result returned by [Orchestrator.run] has
    a non-empty url. *)
Theorem reference_links_have_urls (self : Orchestrator.t) (w : World) (query : string)
  image_bytes history (tr : Trace) result tr' :
  Orchestrator.run self w query image_bytes history tr = (Ok result, tr') ->
  Forall (fun l => ReferenceLink.url l <> "") (QueryResult.reference_links result).
Proof.
  unfold Orchestrator.run. intros H.
  apply bind_inv_ok in H as (q & tr1 & _ & H).
  apply bind_inv_ok in H as (r & tr2 & _ & H).
  destruct (negb (fst r)).
  - apply bind_inv_ok in H as (g & tr3 & Hg & H).
    apply ret_inv in H as [<- _]. simpl.
    eapply generation_run_links; [exact Hg | discriminate].
  - apply bind_inv_ok in H as (ev & tr3 & _ & H).
    apply bind_inv_ok in H as (wr & tr4 & Hweb & H).
    apply bind_inv_ok in H as (g & tr5 & Hg & H).
    apply ret_inv in H as [<- _]. simpl.
    eapply generation_run_links; [exact Hg|].
    intros web Hsome.
    destruct (Py.str_in (snd ev) ["web_only"; "hybrid"]); [|discriminate].
    subst wr. apply bind_inv_ok in Hweb as (web' & tr6 & Hrun & Hret).
    apply ret_inv in Hret as [Heq _]. injection Heq as ->.
    apply web_search_run_ok in Hrun as (raw & text & Hsources & _).
    eapply extract_sources_sound; exact Hsources.
Qed.

(** The hybrid run of [linked_world], with a history of one turn. *)
Example linked_world_run :
  Orchestrator.run default_orchestrator linked_world "q" None (Some [("user", "hi")]) [] =
    (Ok (QueryResult.mk "answer"
           [ReferenceLink.mk "Document (score: 0.50)" "https://example.org/a";
            ReferenceLink.mk "Loops" "https://example.org/loops";
            ReferenceLink.mk "Untitled" "https://example.org/untitled"]
           [RelevantDocument.mk "A" (5 # 10) "No URL available"]),
     [RetrievalChain "q"; SimilaritySearch "q" 3;
      RelevanceChain "q" "A"; NumericalRelevanceChain "q" "A";
      QueryRewriteChain "q"; SearchTool "q"; KnowledgeRefinementChain json_results;
      GenerationChain "q"
        ("Knowledge Base Information:" +:+ Py.nl +:+ "Document (relevance: 0.50):" +:+ Py.nl
         +:+ "A" +:+ Py.nl +:+ Py.nl +:+ "Web Search Information:" +:+ Py.nl
         +:+ "- key point")
        (Some [("user", "hi")])]).
Proof. vm_compute. reflexivity. Qed.

Lemma reference_links_have_urls_witness :
  Forall (fun l => ReferenceLink.url l <> "")
    [ReferenceLink.mk "Document (score: 0.50)" "https://example.org/a";
     ReferenceLink.mk "Loops" "https://example.org/loops";
     ReferenceLink.mk "Untitled" "https://example.org/untitled"].
Proof.
  exact (reference_links_have_urls default_orchestrator linked_world "q" None
           (Some [("user", "hi")]) [] _ _ linked_world_run).
Defined.

(** ** The calls of the evaluation loop *)

Lemma evaluate_relevance_loop_trace (w : World) (query : string)
  (documents : list Document.t) :
  forall acc tr res tr',
    for_each documents
      (fun results doc =>
         let* r := EvaluationAgent.evaluate_document w query doc in ret (results ++ [r]))
      acc tr = (res, tr') ->
    exists n,
      tr' = tr ++ List.firstn n (relevance_calls query documents) /\
      match res with
      | Ok rs => n = (2 * List.length documents)%nat /\
                 List.length rs = (List.length acc + List.length documents)%nat
      | Raise _ => (0 < n <= 2 * List.length documents)%nat
      end.
Proof.
  induction documents as [|doc rest IH]; intros acc tr res tr' H; simpl in H.
  - unfold ret in H. inversion H; subst. exists 0%nat. simpl.
    rewrite List.app_nil_r. split; [reflexivity | lia].
  - unfold bind at 1 in H. unfold bind at 1 in H.
    rewrite evaluate_document_eq in H.
    destruct (relevance_chain w tr query (Document.content doc)) as [s|e].
    + destruct (numerical_relevance_chain w _ query (Document.content doc)) as [sc|e].
      * unfold ret at 1 in H. apply IH in H as (n & -> & Hres).
        exists (2 + n)%nat. split.
        -- simpl. rewrite <- !List.app_assoc. reflexivity.
        -- destruct res as [rs|e]; simpl List.length in *.
           ++ rewrite List.length_app in Hres. simpl in Hres. lia.
           ++ lia.
      * inversion H; subst. exists 2%nat. split.
        -- simpl. rewrite <- !List.app_assoc. reflexivity.
        -- simpl. lia.
    + inversion H; subst. exists 1%nat. split; [reflexivity | simpl; lia].
Qed.

(** X6.  When [evaluate_relevance] returns, it returns one score per
    document and has asked, for each document in retrieval order, for the
    binary judgment and then for the numerical score, and nothing else.  When
    it raises, it has stopped at the call that failed: the calls made are a
    non-empty initial part of that sequence. *)
Theorem evaluate_relevance_calls (w : World) (query : string)
  (documents : list Document.t) (tr : Trace) :
  (forall rs tr',
     EvaluationAgent.evaluate_relevance w query documents tr = (Ok rs, tr') ->
     tr' = tr ++ relevance_calls query documents /\
     List.length rs = List.length documents) /\
  (forall e tr',
     EvaluationAgent.evaluate_relevance w query documents tr = (Raise e, tr') ->
     exists n, (0 < n <= 2 * List.length documents)%nat /\
               tr' = tr ++ List.firstn n (relevance_calls query documents)).
Proof.
  assert (Hlen : List.length (relevance_calls query documents)
                 = (2 * List.length documents)%nat).
  { unfold relevance_calls. induction documents as [|d ds IH]; simpl; [reflexivity|].
    simpl in IH. rewrite IH. lia. }
  split.
  - intros rs tr' H. apply evaluate_relevance_loop_trace in H as (n & -> & -> & Hrs).
    rewrite <- Hlen, List.firstn_all. split; [reflexivity | exact Hrs].
  - intros e tr' H. apply evaluate_relevance_loop_trace in H as (n & -> & Hn).
    exists n. split; [exact Hn | reflexivity].
Qed.

(** ** What makes a run raise *)


























(** ** The calls of a knowledge-base-only run *)

Lemma relevance_calls_not_web (query : string) (documents : list Document.t) :
  Forall (fun c => web_search_call c = false) (relevance_calls query documents).
Proof.
  unfold relevance_calls. induction documents as [|d ds IH]; simpl; repeat constructor.
  exact IH.
Qed.

Lemma retrieval_run_performed (w : World) (query : string) (tr : Trace) documents tr' :
  RetrievalAgent.run w query tr = (Ok (true, documents), tr') ->
  tr' = tr ++ [RetrievalChain query; SimilaritySearch query RetrievalAgent.top_k].
Proof.
  unfold RetrievalAgent.run. intros H.
  apply bind_inv_ok in H as (b & tr1 & Hsr & H).
  rewrite should_retrieve_eq in Hsr. inversion Hsr; subst.
  destruct (negb b).
  - apply ret_inv in H as [H _]. discriminate.
  - apply bind_inv_ok in H as (docs & tr2 & Hdocs & H).
    apply ret_inv in H as [_ <-].
    unfold RetrievalAgent.retrieve_documents in Hdocs.
    apply bind_inv_ok in Hdocs as (raw & tr3 & Hraw & Hdocs).
    apply ret_inv in Hdocs as [_ <-].
    unfold invoke in Hraw. inversion Hraw; subst.
    now rewrite <- List.app_assoc.
Qed.

Lemma evaluation_run_calls (self : EvaluationAgent.t) (w : World) (query : string)
  (documents : list Document.t) (tr : Trace) ev tr' :
  EvaluationAgent.run self w query documents tr = (Ok ev, tr') ->
  tr' = tr ++ relevance_calls query documents.
Proof.
  unfold EvaluationAgent.run, EvaluationAgent.evaluate_relevance. intros H.
  apply bind_inv_ok in H as (rs & tr1 & Hloop & H).
  apply ret_inv in H as [_ <-].
  apply evaluate_relevance_loop_trace in Hloop as (n & -> & -> & _).
  f_equal. apply List.firstn_all2.
  unfold relevance_calls. clear. induction documents as [|d ds IH]; simpl in *; lia.
Qed.

(** X9.  The calls of a run whose strategy is [kb_only] are, after the
    optional image call: the retrieval gate, the index search, the two
    judgments of each document, and one generation call on the
    knowledge-base context carrying the conversation history when it is not
    empty.  No call rewrites the query, searches the web or refines web
    results. *)
Theorem kb_only_run_calls (self : Orchestrator.t) (w : World) (user_query : string)
  image_bytes history (tr : Trace) query tr1 documents tr2 rs tr3 :
  Orchestrator.effective_query w user_query image_bytes tr = (Ok query, tr1) ->
  RetrievalAgent.run w query tr1 = (Ok (true, documents), tr2) ->
  EvaluationAgent.run (Orchestrator.evaluation_agent self) w query documents tr2
    = (Ok (rs, "kb_only"), tr3) ->
  snd (Orchestrator.run self w user_query image_bytes history tr)
  = tr1 ++ [RetrievalChain query; SimilaritySearch query RetrievalAgent.top_k]
        ++ relevance_calls query documents
        ++ [GenerationChain query
              (fst (GenerationAgent._prepare_kb_context w documents
                      (List.map RelevanceScore.score rs)))
              (GenerationAgent.history_input history)] /\
  exists calls,
    snd (Orchestrator.run self w user_query image_bytes history tr) = tr ++ calls /\
    Forall (fun c => web_search_call c = false) calls.
Proof.
  intros Hq Hr Hev.
  assert (Hrun : snd (Orchestrator.run self w user_query image_bytes history tr)
    = tr1 ++ [RetrievalChain query; SimilaritySearch query RetrievalAgent.top_k]
        ++ relevance_calls query documents
        ++ [GenerationChain query
              (fst (GenerationAgent._prepare_kb_context w documents
                      (List.map RelevanceScore.score rs)))
              (GenerationAgent.history_input history)]).
  { rewrite (run_kb_only self w user_query image_bytes history tr query tr1 documents
               tr2 rs tr3 Hq Hr Hev).
    apply retrieval_run_performed in Hr as ->.
    apply evaluation_run_calls in Hev as ->.
    unfold GenerationAgent.generate_from_kb, GenerationAgent.generate, bind, invoke, ret.
    destruct (generation_chain w _ query _ _); simpl; now rewrite <- !List.app_assoc. }
  split; [exact Hrun|]. rewrite Hrun.
  unfold Orchestrator.effective_query, Orchestrator.process_image, invoke, ret in Hq.
  destruct image_bytes as [[|b bs]|]; inversion Hq; subst.
  - eexists. split; [reflexivity|].
    repeat constructor. apply List.Forall_app. split; [apply relevance_calls_not_web|].
    now repeat constructor.
  - eexists. rewrite <- List.app_assoc. split; [reflexivity|].
    repeat constructor. apply List.Forall_app. split; [apply relevance_calls_not_web|].
    now repeat constructor.
  - eexists. split; [reflexivity|].
    repeat constructor. apply List.Forall_app. split; [apply relevance_calls_not_web|].
    now repeat constructor.
Qed.

Lemma kb_only_run_calls_witness :
  snd (Orchestrator.run default_orchestrator kb_world "q" None None [])
  = [] ++ [RetrievalChain "q"; SimilaritySearch "q" RetrievalAgent.top_k]
       ++ relevance_calls "q" [Document.mk "A" {[ "url" := "https://example.org/a" ]};
                               Document.mk "B" ∅]
       ++ [GenerationChain "q"
             (fst (GenerationAgent._prepare_kb_context kb_world
                     [Document.mk "A" {[ "url" := "https://example.org/a" ]};
                      Document.mk "B" ∅]
                     [9 # 10; 8 # 10]))
             None] /\
  exists calls,
    snd (Orchestrator.run default_orchestrator kb_world "q" None None []) = [] ++ calls /\
    Forall (fun c => web_search_call c = false) calls.
Proof.
  exact (kb_only_run_calls default_orchestrator kb_world "q" None None [] "q" []
           [Document.mk "A" {[ "url" := "https://example.org/a" ]}; Document.mk "B" ∅]
           [RetrievalChain "q"; SimilaritySearch "q" 3]
           [RelevanceScore.mk (9 # 10) true; RelevanceScore.mk (8 # 10) false]
           _ eq_refl eq_refl kb_world_evaluation).
Defined.

(** ** Forwarding of the conversation history *)

Lemma generation_run_history (w : World) (query : string) strategy documents scores
  web_result history (tr : Trace) g tr' :
  GenerationAgent.run w query strategy documents scores web_result history tr = (Ok g, tr') ->
  exists c, tr' = tr ++ [GenerationChain query c (GenerationAgent.history_input history)].
Proof.
  assert (Hgen : forall context (sources : list ReferenceLink.t),
            (let* response := GenerationAgent.generate w query context history in
             ret (response, sources)) tr = (Ok g, tr') ->
            exists c, tr' = tr ++ [GenerationChain query c
                                     (GenerationAgent.history_input history)]).
  { intros context sources H. apply bind_inv_ok in H as (r & tr1 & Hg & H).
    apply ret_inv in H as [_ <-].
    unfold GenerationAgent.generate, invoke in Hg. inversion Hg; subst. eauto. }
  unfold GenerationAgent.run.
  destruct (GenerationAgent.strategy_is strategy "kb_only");
    [|destruct (GenerationAgent.strategy_is strategy "web_only");
      [|destruct (GenerationAgent.strategy_is strategy "hybrid")]].
  - unfold GenerationAgent.generate_from_kb.
    destruct documents as [d|], scores as [s|];
      try (unfold raise; intros H; discriminate H).
    apply Hgen.
  - unfold GenerationAgent.generate_from_web.
    destruct web_result as [web|]; try (unfold raise; intros H; discriminate H).
    apply Hgen.
  - unfold GenerationAgent.generate_hybrid.
    destruct documents as [d|], scores as [s|];
      try (unfold raise; intros H; discriminate H).
    destruct web_result as [web|]; try (unfold raise; intros H; discriminate H).
    apply Hgen.
  - unfold GenerationAgent.generate_without_context. apply Hgen.
Qed.

(** X10.  In a run that returns, the last call is the generation call, and
    it carries the conversation history exactly when retrieval was performed
    and the history is not empty: on the no-retrieval path, and for an empty
    history, the generation service receives no history. *)
Theorem history_forwarding (self : Orchestrator.t) (w : World) (user_query : string)
  image_bytes history (tr : Trace) query tr1 performed documents tr2 result tr' :
  Orchestrator.effective_query w user_query image_bytes tr = (Ok query, tr1) ->
  RetrievalAgent.run w query tr1 = (Ok (performed, documents), tr2) ->
  Orchestrator.run self w user_query image_bytes history tr = (Ok result, tr') ->
  exists t0 c,
    tr' = t0 ++ [GenerationChain query c
                   (if performed
                    then match history with
                         | Some (turn :: turns) => Some (turn :: turns)
                         | _ => None
                         end
                    else None)].
Proof.
  intros Hq Hr. unfold Orchestrator.run.
  rewrite (bind_ok _ _ _ _ _ Hq), (bind_ok _ _ _ _ _ Hr). cbn [fst snd].
  destruct performed; cbn [negb]; intros H.
  - apply bind_inv_ok in H as (ev & tr3 & _ & H).
    apply bind_inv_ok in H as (wr & tr4 & _ & H).
    apply bind_inv_ok in H as (g & tr5 & Hg & H).
    apply ret_inv in H as [_ <-].
    apply generation_run_history in Hg as (c & ->).
    exists tr4, c. unfold GenerationAgent.history_input.
    destruct history as [[|turn turns]|]; reflexivity.
  - apply bind_inv_ok in H as (g & tr3 & Hg & H).
    apply ret_inv in H as [_ <-].
    apply generation_run_history in Hg as (c & ->).
    exists tr2, c. reflexivity.
Qed.

Lemma history_forwarding_witness :
  exists t0 c,
    [RetrievalChain "q"; SimilaritySearch "q" 3;
     RelevanceChain "q" "A"; NumericalRelevanceChain "q" "A";
     QueryRewriteChain "q"; SearchTool "q"; KnowledgeRefinementChain json_results;
     GenerationChain "q"
       ("Knowledge Base Information:" +:+ Py.nl +:+ "Document (relevance: 0.50):" +:+ Py.nl
        +:+ "A" +:+ Py.nl +:+ Py.nl +:+ "Web Search Information:" +:+ Py.nl
        +:+ "- key point")
       (Some [("user", "hi")])]
    = t0 ++ [GenerationChain "q" c (Some [("user", "hi")])].
Proof.
  exact (history_forwarding default_orchestrator linked_world "q" None
           (Some [("user", "hi")]) [] "q" [] true
           [Document.mk "A" {[ "source_url" := "https://example.org/a" ]}]
           [RetrievalChain "q"; SimilaritySearch "q" 3] _ _
           eq_refl eq_refl linked_world_run).
Defined.

(** ** The documents reported with the answer *)

(** X11.  When retrieval was performed and the run returns, every retrieved
    document is paired with its own score, and the reported documents are
    exactly the retrieved documents whose score is at least the lower
    threshold, each once (in some order), with its preview, its score and the
    [url] entry of its metadata, or [No URL available] when there is none. *)
Theorem reported_documents (self : Orchestrator.t) (w : World) (user_query : string)
  image_bytes history (tr : Trace) query tr1 documents tr2 rs strategy tr3 result tr' :
  Orchestrator.effective_query w user_query image_bytes tr = (Ok query, tr1) ->
  RetrievalAgent.run w query tr1 = (Ok (true, documents), tr2) ->
  EvaluationAgent.run (Orchestrator.evaluation_agent self) w query documents tr2
    = (Ok (rs, strategy), tr3) ->
  Orchestrator.run self w user_query image_bytes history tr = (Ok result, tr') ->
  List.length rs = List.length documents /\
  Permutation (QueryResult.relevant_docs result)
    (List.map
       (fun pair : Document.t * Q =>
          RelevantDocument.mk (Document.preview (fst pair)) (snd pair)
            (default "No URL available" (Document.metadata (fst pair) !! "url")))
       (List.filter
          (fun pair : Document.t * Q =>
             Qle_bool (EvaluationAgent.lower_threshold (Orchestrator.evaluation_agent self))
               (snd pair))
          (Py.zip documents (List.map RelevanceScore.score rs)))).
Proof.
  intros Hq Hr Hev. unfold Orchestrator.run.
  rewrite (bind_ok _ _ _ _ _ Hq), (bind_ok _ _ _ _ _ Hr). cbn [fst snd negb].
  rewrite (bind_ok _ _ _ _ _ Hev). cbn [fst snd]. intros H.
  apply bind_inv_ok in H as (wr & tr4 & _ & H).
  apply bind_inv_ok in H as (g & tr5 & _ & H).
  apply ret_inv in H as [<- _]. simpl QueryResult.relevant_docs. split.
  - apply evaluation_run_ok in Hev as [Hjudged _].
    symmetry. eapply Forall2_length; eassumption.
  - unfold Orchestrator.relevant_docs_of. symmetry. apply permutation_sorted_desc.
Qed.

Lemma reported_documents_witness :
  List.length [RelevanceScore.mk (9 # 10) true; RelevanceScore.mk (8 # 10) false]
  = List.length [Document.mk "A" {[ "url" := "https://example.org/a" ]}; Document.mk "B" ∅] /\
  Permutation
    [RelevantDocument.mk "A" (9 # 10) "https://example.org/a";
     RelevantDocument.mk "B" (8 # 10) "No URL available"]
    (List.map
       (fun pair : Document.t * Q =>
          RelevantDocument.mk (Document.preview (fst pair)) (snd pair)
            (default "No URL available" (Document.metadata (fst pair) !! "url")))
       (List.filter
          (fun pair : Document.t * Q => Qle_bool (3 # 10) (snd pair))
          (Py.zip [Document.mk "A" {[ "url" := "https://example.org/a" ]}; Document.mk "B" ∅]
             [9 # 10; 8 # 10]))).
Proof.
  exact (reported_documents default_orchestrator kb_world "q" None None [] "q" []
           [Document.mk "A" {[ "url" := "https://example.org/a" ]}; Document.mk "B" ∅]
           [RetrievalChain "q"; SimilaritySearch "q" 3]
           [RelevanceScore.mk (9 # 10) true; RelevanceScore.mk (8 # 10) false]
           "kb_only" _ _ _ eq_refl eq_refl kb_world_evaluation kb_world_run).
Defined.

(** ** The documents reported by the combined script *)

Lemma evaluate_context_docs (rag : CombinedRAG.t) (w : World) (query : string)
  (contexts : list CombinedRAG.Context) :
  forall st tr ev tr',
    for_each contexts (CombinedRAG.evaluate_context rag w query) st tr = (Ok ev, tr') ->
    exists scores,
      Forall2 (fun (doc : CombinedRAG.Context) score =>
                 exists t, numerical_relevance_chain w t query (fst doc) = Ok score)
              contexts scores /\
      CombinedRAG.relevant_docs ev
      = CombinedRAG.relevant_docs st
          ++ List.map (fun pair : CombinedRAG.Context * Q => reported_passage (fst pair) (snd pair))
               (List.filter
                  (fun pair : CombinedRAG.Context * Q =>
                     Qle_bool (CombinedRAG.lower_threshold rag) (snd pair))
                  (Py.zip contexts scores)).
Proof.
  induction contexts as [|doc rest IH]; intros st tr ev tr' H; simpl in H.
  - apply ret_inv in H as [<- _]. exists []. split; [constructor|].
    simpl. now rewrite List.app_nil_r.
  - apply bind_inv_ok in H as (st' & tr1 & Hbody & H).
    apply IH in H as (scores & Hscores & Hdocs).
    unfold CombinedRAG.evaluate_context, CombinedRAG.evaluate_document_relevance in Hbody.
    apply bind_inv_ok in Hbody as (sc & tr2 & Hsc & Hbody).
    apply bind_inv_ok in Hbody as (r & tr3 & _ & Hbody).
    apply ret_inv in Hbody as [<- _].
    unfold invoke in Hsc. injection Hsc as Hsc _.
    simpl in Hdocs. exists (sc :: scores). split.
    + constructor; [now exists tr | exact Hscores].
    + rewrite Hdocs. simpl.
      destruct (Qle_bool (CombinedRAG.lower_threshold rag) sc); [|reflexivity].
      simpl. rewrite <- List.app_assoc. simpl. do 2 f_equal.
      unfold reported_passage. now rewrite preview_eq.
Qed.

(** X12.  The documents reported by a [CombinedRAG.run] that returns.  When
    the gate declines retrieval there are none.  Otherwise they are, in
    retrieval order and unsorted, the retrieved passages whose score (the
    answer of the numerical judgment for that passage) is at least the lower
    threshold, each with its preview of at most 203 characters, its score and
    the [parent_url] entry of its metadata, or [No URL available]. *)
Theorem combined_relevant_docs (rag : CombinedRAG.t) (w : World) (query : string)
  (tr : Trace) result tr' :
  CombinedRAG.run rag w query tr = (Ok result, tr') ->
  exists gate,
    retrieval_chain w tr query = Ok gate /\
    if String.eqb (Py.lower (Py.strip gate)) "yes"
    then
      exists contexts scores,
        similarity_search w (tr ++ [RetrievalChain query]) query (CombinedRAG.top_k rag)
        = Ok contexts /\
        Forall2 (fun (doc : CombinedRAG.Context) score =>
                   exists t, numerical_relevance_chain w t query (fst doc) = Ok score)
                contexts scores /\
        RagResult.relevant_docs result
        = List.map
            (fun pair : CombinedRAG.Context * Q =>
               RelevantDocument.mk
                 (Document.preview (Document.mk (fst (fst pair)) (snd (fst pair))))
                 (snd pair)
                 (default "No URL available" (snd (fst pair) !! "parent_url")))
            (List.filter
               (fun pair : CombinedRAG.Context * Q =>
                  Qle_bool (CombinedRAG.lower_threshold rag) (snd pair))
               (Py.zip contexts scores)) /\
        Forall (fun d => CombinedRAG.lower_threshold rag <= RelevantDocument.score d /\
                         (String.length (RelevantDocument.content_preview d) <= 203)%nat)
               (RagResult.relevant_docs result)
    else RagResult.relevant_docs result = [].
Proof.
  unfold CombinedRAG.run. intros H.
  apply bind_inv_ok in H as (gate & tr1 & Hgate & H).
  unfold invoke in Hgate. injection Hgate as Hgate <-.
  exists gate. split; [exact Hgate|].
  destruct (String.eqb (Py.lower (Py.strip gate)) "yes").
  - apply bind_inv_ok in H as (contexts & tr2 & Hcontexts & H).
    unfold invoke in Hcontexts. injection Hcontexts as Hcontexts <-.
    apply bind_inv_ok in H as (ev & tr3 & Hev & H).
    apply evaluate_context_docs in Hev as (scores & Hscores & Hdocs).
    simpl in Hdocs.
    assert (Hresult : RagResult.relevant_docs result = CombinedRAG.relevant_docs ev).
    { destruct (CombinedRAG.action rag (CombinedRAG.eval_scores ev)
                  (CombinedRAG.relevant_contexts ev)).
      - apply bind_inv_ok in H as (ws & tr4 & _ & H).
        apply bind_inv_ok in H as (text & tr5 & _ & H).
        apply bind_inv_ok in H as (a & tr6 & _ & H).
        apply ret_inv in H as [<- _]. reflexivity.
      - destruct (Py.max_by _ (CombinedRAG.relevant_contexts ev)) as [best|];
          [|discriminate H].
        apply bind_inv_ok in H as (kps & tr4 & _ & H).
        apply bind_inv_ok in H as (ws & tr5 & _ & H).
        apply bind_inv_ok in H as (a & tr6 & _ & H).
        apply ret_inv in H as [<- _]. reflexivity.
      - apply bind_inv_ok in H as (responses & tr4 & _ & H).
        destruct (CombinedRAG.select_best responses) as [best|]; [|discriminate H].
        apply ret_inv in H as [<- _]. reflexivity. }
    exists contexts, scores. split; [exact Hcontexts|]. split; [exact Hscores|].
    rewrite Hresult, Hdocs. split; [reflexivity|].
    apply List.Forall_forall. intros d Hd.
    apply List.in_map_iff in Hd as (pair & <- & Hpair).
    apply List.filter_In in Hpair as [_ Hle]. simpl. split.
    + now apply Qle_bool_iff.
    + apply length_preview.
  - apply bind_inv_ok in H as (a & tr2 & _ & H).
    apply ret_inv in H as [<- _]. reflexivity.
Qed.

Lemma combined_relevant_docs_witness :
  exists gate,
    retrieval_chain irrelevant_world [] "q" = Ok gate /\
    if String.eqb (Py.lower (Py.strip gate)) "yes"
    then
      exists contexts scores,
        similarity_search irrelevant_world ([] ++ [RetrievalChain "q"]) "q"
          (CombinedRAG.top_k default_rag)
        = Ok contexts /\
        Forall2 (fun (doc : CombinedRAG.Context) score =>
                   exists t, numerical_relevance_chain irrelevant_world t "q" (fst doc)
                             = Ok score)
                contexts scores /\
        [RelevantDocument.mk "A" (9 # 10) "No URL available"]
        = List.map
            (fun pair : CombinedRAG.Context * Q =>
               RelevantDocument.mk
                 (Document.preview (Document.mk (fst (fst pair)) (snd (fst pair))))
                 (snd pair)
                 (default "No URL available" (snd (fst pair) !! "parent_url")))
            (List.filter
               (fun pair : CombinedRAG.Context * Q =>
                  Qle_bool (CombinedRAG.lower_threshold default_rag) (snd pair))
               (Py.zip contexts scores)) /\
        Forall (fun d => CombinedRAG.lower_threshold default_rag <= RelevantDocument.score d /\
                         (String.length (RelevantDocument.content_preview d) <= 203)%nat)
               [RelevantDocument.mk "A" (9 # 10) "No URL available"]
    else [RelevantDocument.mk "A" (9 # 10) "No URL available"] = [].
Proof.
  exact (combined_relevant_docs default_rag irrelevant_world "q" [] _ _
           irrelevant_world_combined_run).
Defined.

(** ** The conversation memory *)

(** X13.  The message that [add_message_to_zep] hands to the memory client
    never has more than 2400 characters.  A content of at most 2400
    characters is stored unchanged and unmarked; a longer one is stored as
    its first 2300 characters followed by the truncation marker, 2323
    characters in all, and marked as truncated.  Role and role type are kept,
    and the function reports [true] exactly when the client accepted that one
    message. *)
Theorem zep_message_bounded (memory_add : string -> list Zep.Message -> Result unit)
  (now session_id role role_type content : string) :
  let m := Zep.memory_message now role role_type content in
  (String.length (Zep.content m) <= Zep.MAX_ZEP_MESSAGE_LENGTH)%nat /\
  Zep.role m = role /\ Zep.role_type m = role_type /\
  ((String.length content <= 2400)%nat ->
   Zep.content m = content /\ Zep.truncated m = false) /\
  ((2400 < String.length content)%nat ->
   exists kept rest,
     content = kept +:+ rest /\ String.length kept = 2300%nat /\
     Zep.content m = kept +:+ "... [content truncated]" /\
     String.length (Zep.content m) = 2323%nat /\
     Zep.truncated m = true) /\
  (Zep.add_message_to_zep memory_add now session_id role role_type content = true <->
   exists u, memory_add session_id [m] = Ok u).
Proof.
  assert (Hmarker : String.length "... [content truncated]" = 23%nat) by reflexivity.
  assert (Hkept : forall n, (n < String.length content)%nat ->
                            String.length (Py.slice_to n content) = n).
  { intros n Hn. rewrite length_slice_to. lia. }
  cbv zeta. unfold Zep.add_message_to_zep, Zep.memory_message, Zep.MAX_ZEP_MESSAGE_LENGTH.
  destruct (Nat.ltb_spec 2400 (String.length content)) as [Hlong | Hshort];
    cbn [Zep.content Zep.role Zep.role_type Zep.truncated].
  - assert (H2300 : String.length (Py.slice_to (2400 - 100) content) = (2400 - 100)%nat)
      by (apply Hkept; lia).
    repeat match goal with |- _ /\ _ => split end; try reflexivity.
    + rewrite length_append, H2300, Hmarker. lia.
    + lia.
    + intros _. destruct (slice_to_prefix (2400 - 100) content) as [rest Hrest].
      exists (Py.slice_to (2400 - 100) content), rest.
      repeat match goal with |- _ /\ _ => split end; try reflexivity.
      * exact Hrest.
      * rewrite H2300. lia.
      * rewrite length_append, H2300, Hmarker. lia.
    + destruct (memory_add session_id _) as [u | e]; split.
      * intros _. now exists u.
      * reflexivity.
      * discriminate.
      * intros [u Hu]. discriminate Hu.
  - repeat match goal with |- _ /\ _ => split end; try reflexivity.
    + exact Hshort.
    + intros _. now split.
    + lia.
    + destruct (memory_add session_id _) as [u | e]; split.
      * intros _. now exists u.
      * reflexivity.
      * discriminate.
      * intros [u Hu]. discriminate Hu.
Qed.

(** ** The calls of a run that searches the web *)

Lemma web_search_run_calls (w : World) (query : string) (tr : Trace) r tr' :
  WebSearchAgent.run w query tr = (Ok r, tr') ->
  exists rq raw text,
    query_rewrite_chain w tr query = Ok rq /\
    search_tool w (tr ++ [QueryRewriteChain query]) (Py.strip rq) = Ok raw /\
    knowledge_refinement_chain w
      (tr ++ [QueryRewriteChain query; SearchTool (Py.strip rq)]) raw = Ok text /\
    tr' = tr ++ [QueryRewriteChain query; SearchTool (Py.strip rq);
                 KnowledgeRefinementChain raw] /\
    exists sources,
      WebSearchAgent.extract_sources w raw = Ok sources /\
      r = WebSearchResult.mk (Py.join Py.nl (WebSearchAgent.key_points_of text)) sources.
Proof.
  intros H.
  destruct (query_rewrite_chain w tr query) as [rq|e] eqn:Hrq.
  2:{ unfold WebSearchAgent.run, WebSearchAgent.rewrite_query, bind, invoke in H.
      rewrite Hrq in H. discriminate H. }
  destruct (search_tool w (tr ++ [QueryRewriteChain query]) (Py.strip rq)) as [raw|e] eqn:Hraw.
  2:{ unfold WebSearchAgent.run, WebSearchAgent.rewrite_query, bind, invoke, ret in H.
      rewrite Hrq, Hraw in H. discriminate H. }
  rewrite (web_search_run_eq w query tr rq raw Hrq Hraw) in H.
  exists rq, raw.
  replace (tr ++ [QueryRewriteChain query; SearchTool (Py.strip rq)])
    with ((tr ++ [QueryRewriteChain query]) ++ [SearchTool (Py.strip rq)])
    by now rewrite <- List.app_assoc.
  destruct (knowledge_refinement_chain w _ raw) as [text|e]; [|discriminate H].
  destruct (WebSearchAgent.extract_sources w raw) as [sources|e]; [|discriminate H].
  exists text. simpl in H. inversion H; subst.
  split; [reflexivity|]. split; [exact Hraw|]. split; [reflexivity|].
  split; [now rewrite <- !List.app_assoc|]. now exists sources.
Qed.

(** X14.  A run whose strategy is [web_only] or [hybrid] and which returns
    has made, after the judgments of the documents, exactly four more calls:
    the query rewrite on the query, one web search on the stripped rewritten
    query (not on the user's text), the refinement of the raw search output,
    and the generation call.  Its reference links are the knowledge-base
    links (none for [web_only]) followed by the links extracted from the raw
    search output. *)
Theorem web_run_calls (self : Orchestrator.t) (w : World) (user_query : string)
  image_bytes history (tr : Trace) query tr1 documents tr2 rs strategy tr3 result tr' :
  Orchestrator.effective_query w user_query image_bytes tr = (Ok query, tr1) ->
  RetrievalAgent.run w query tr1 = (Ok (true, documents), tr2) ->
  EvaluationAgent.run (Orchestrator.evaluation_agent self) w query documents tr2
    = (Ok (rs, strategy), tr3) ->
  Py.str_in strategy ["web_only"; "hybrid"] = true ->
  Orchestrator.run self w user_query image_bytes history tr = (Ok result, tr') ->
  exists rq raw context web_links,
    query_rewrite_chain w tr3 query = Ok rq /\
    search_tool w (tr3 ++ [QueryRewriteChain query]) (Py.strip rq) = Ok raw /\
    tr' = tr3 ++ [QueryRewriteChain query; SearchTool (Py.strip rq);
                  KnowledgeRefinementChain raw;
                  GenerationChain query context (GenerationAgent.history_input history)] /\
    WebSearchAgent.extract_sources w raw = Ok web_links /\
    QueryResult.reference_links result
    = (if String.eqb strategy "hybrid"
       then snd (GenerationAgent._prepare_kb_context w documents
                   (List.map RelevanceScore.score rs))
       else [])
      ++ web_links.
Proof.
  intros Hq Hr Hev Hs. unfold Orchestrator.run.
  rewrite (bind_ok _ _ _ _ _ Hq), (bind_ok _ _ _ _ _ Hr). cbn [fst snd negb].
  rewrite (bind_ok _ _ _ _ _ Hev). cbn [fst snd]. rewrite Hs. intros H.
  apply bind_inv_ok in H as (wr & tr4 & Hweb & H).
  apply bind_inv_ok in Hweb as (web & tr5 & Hweb & Hret).
  apply ret_inv in Hret as [<- <-].
  apply web_search_run_calls in Hweb
    as (rq & raw & text & Hrq & Hraw & _ & -> & web_links & Hlinks & ->).
  apply bind_inv_ok in H as (g & tr6 & Hg & H).
  apply ret_inv in H as [<- <-]. simpl QueryResult.reference_links.
  assert (Hgen : forall context (sources : list ReferenceLink.t) g t0 t1,
            (let* response := GenerationAgent.generate w query context history in
             ret (response, sources)) t0 = (Ok g, t1) ->
            t1 = t0 ++ [GenerationChain query context
                          (GenerationAgent.history_input history)] /\
            snd g = sources).
  { intros context sources g0 t0 t1 H. apply bind_inv_ok in H as (r & t2 & Hg0 & H).
    apply ret_inv in H as [<- <-].
    unfold GenerationAgent.generate, invoke in Hg0. inversion Hg0; subst. now split. }
  unfold Py.str_in in Hs. simpl in Hs.
  destruct (String.eqb_spec strategy "web_only") as [-> | Hweb_only].
  - unfold GenerationAgent.run in Hg. simpl in Hg.
    unfold GenerationAgent.generate_from_web in Hg. cbv zeta in Hg.
    apply Hgen in Hg as [-> ->]. exists rq, raw. eexists. exists web_links.
    split; [exact Hrq|]. split; [exact Hraw|]. split; [|split].
    + rewrite <- List.app_assoc. reflexivity.
    + exact Hlinks.
    + reflexivity.
  - destruct (String.eqb_spec strategy "hybrid") as [-> | Hhybrid]; [|discriminate Hs].
    unfold GenerationAgent.run in Hg. simpl in Hg.
    unfold GenerationAgent.generate_hybrid in Hg. cbv zeta in Hg.
    apply Hgen in Hg as [-> ->]. exists rq, raw. eexists. exists web_links.
    split; [exact Hrq|]. split; [exact Hraw|]. split; [|split].
    + rewrite <- List.app_assoc. reflexivity.
    + exact Hlinks.
    + reflexivity.
Qed.

Lemma web_run_calls_witness :
  exists rq raw context web_links,
    query_rewrite_chain linked_world
      [RetrievalChain "q"; SimilaritySearch "q" 3;
       RelevanceChain "q" "A"; NumericalRelevanceChain "q" "A"] "q" = Ok rq /\
    search_tool linked_world
      ([RetrievalChain "q"; SimilaritySearch "q" 3;
        RelevanceChain "q" "A"; NumericalRelevanceChain "q" "A"]
         ++ [QueryRewriteChain "q"]) (Py.strip rq) = Ok raw /\
    [RetrievalChain "q"; SimilaritySearch "q" 3;
     RelevanceChain "q" "A"; NumericalRelevanceChain "q" "A";
     QueryRewriteChain "q"; SearchTool "q"; KnowledgeRefinementChain json_results;
     GenerationChain "q"
       ("Knowledge Base Information:" +:+ Py.nl +:+ "Document (relevance: 0.50):" +:+ Py.nl
        +:+ "A" +:+ Py.nl +:+ Py.nl +:+ "Web Search Information:" +:+ Py.nl
        +:+ "- key point")
       (Some [("user", "hi")])]
    = [RetrievalChain "q"; SimilaritySearch "q" 3;
       RelevanceChain "q" "A"; NumericalRelevanceChain "q" "A"]
        ++ [QueryRewriteChain "q"; SearchTool (Py.strip rq);
            KnowledgeRefinementChain raw;
            GenerationChain "q" context
              (GenerationAgent.history_input (Some [("user", "hi")]))] /\
    WebSearchAgent.extract_sources linked_world raw = Ok web_links /\
    [ReferenceLink.mk "Document (score: 0.50)" "https://example.org/a";
     ReferenceLink.mk "Loops" "https://example.org/loops";
     ReferenceLink.mk "Untitled" "https://example.org/untitled"]
    = (if String.eqb "hybrid" "hybrid"
       then snd (GenerationAgent._prepare_kb_context linked_world
                   [Document.mk "A" {[ "source_url" := "https://example.org/a" ]}]
                   (List.map RelevanceScore.score [RelevanceScore.mk (5 # 10) true]))
       else [])
      ++ web_links.
Proof.
  exact (web_run_calls default_orchestrator linked_world "q" None (Some [("user", "hi")]) []
           "q" [] [Document.mk "A" {[ "source_url" := "https://example.org/a" ]}]
           [RetrievalChain "q"; SimilaritySearch "q" 3]
           [RelevanceScore.mk (5 # 10) true] "hybrid"
           [RetrievalChain "q"; SimilaritySearch "q" 3;
            RelevanceChain "q" "A"; NumericalRelevanceChain "q" "A"]
           _ _ eq_refl eq_refl eq_refl eq_refl linked_world_run).
Defined.
